(** * Ostad Result Checker API (Ostad-Capstone-Backend/server.js)

    A shallow embedding of the Express handlers of [server.js] and of the
    configuration line that fixes the cache TTL, together with the
    properties of the cache-aside read path, of result ingestion and of
    student creation.

    Layout:
    - [Js]      values reaching the handlers, truthiness, property reads,
                template-literal conversion, [parseInt];
    - [JSON]    [JSON.stringify] / [JSON.parse] on those values;
    - [Server]  the two external services (document store, key-value cache)
                as explicit state, the driver calls, and the handlers;
    - [Scenario] concrete states and requests;
    - [Service] the routes that only read ([/getStudents], [/health]),
                start-up and shutdown;
    - [Trace]   sequences of requests and the invariants stated on them;
    - facts about JSON text and about each path of the handlers, then the
      properties of the lookup, of the write endpoints and of the TTL.

    A request is taken to run on its own, at one instant: the handlers are
    sequential code between awaited driver calls, and no property below is
    about two requests interleaving. *)

From Stdlib Require Import ZArith NArith Ascii String List Lia.
From Stdlib Require Import DecimalString DecimalZ DecimalPos DecimalFacts.
From stdpp Require Import base option list strings gmap.

Local Open Scope string_scope.
Local Open Scope list_scope.

(* ===================================================================== *)
(** ** JavaScript values                                                  *)
(* ===================================================================== *)

Module Js.

(** The values that flow through the handlers: what [express.json()] puts
    in [req.body] (JSON values), plus the [ObjectId] the MongoDB driver
    generates for [_id].  A JavaScript string is kept as a Rocq [string];
    numbers are the integers (no handler computes with a number: they are
    only tested for truthiness and copied).  [undefined] is not a value of
    this type: a property read that finds nothing returns [None]. *)
#[local] Unset Elimination Schemes.
Inductive JsValue : Type :=
| JNull
| JBool (b : bool)
| JNumber (n : Z)
| JString (s : string)
| JObjectId (hex : string)
| JArray (items : list JsValue)
| JObject (props : list (string * JsValue)).
#[local] Set Elimination Schemes.

(** Nested induction principle: the hypotheses for arrays and objects speak
    about every element. *)
Section JsValue_nested_ind.
Variable P : JsValue -> Prop.
Hypothesis Hnull : P JNull.
Hypothesis Hbool : forall b, P (JBool b).
Hypothesis Hnum : forall n, P (JNumber n).
Hypothesis Hstr : forall s, P (JString s).
Hypothesis Hoid : forall h, P (JObjectId h).
Hypothesis Harr : forall xs, Forall P xs -> P (JArray xs).
Hypothesis Hobj : forall fs, Forall (fun kv => P (snd kv)) fs -> P (JObject fs).

Fixpoint JsValue_nested_ind (v : JsValue) : P v :=
  match v with
  | JNull => Hnull
  | JBool b => Hbool b
  | JNumber n => Hnum n
  | JString s => Hstr s
  | JObjectId h => Hoid h
  | JArray xs =>
      Harr xs ((fix go (l : list JsValue) : Forall P l :=
                  match l with
                  | [] => @List.Forall_nil _ P
                  | x :: l' =>
                      @List.Forall_cons _ P x l' (JsValue_nested_ind x) (go l')
                  end) xs)
  | JObject fs =>
      Hobj fs ((fix go (l : list (string * JsValue))
                  : Forall (fun kv => P (snd kv)) l :=
                  match l with
                  | [] => @List.Forall_nil _ _
                  | kv :: l' =>
                      @List.Forall_cons _ (fun kv => P (snd kv)) kv l'
                        (JsValue_nested_ind (snd kv)) (go l')
                  end) fs)
  end.
End JsValue_nested_ind.

(** [!v] is [negb (truthy v)].  Falsy values: [null], [false], [0], the empty
    string; every object (array, plain object, ObjectId) is truthy. *)
Definition truthy (v : JsValue) : bool :=
  match v with
  | JNull => false
  | JBool b => b
  | JNumber n => negb (n =? 0)%Z
  | JString s => negb (String.eqb s EmptyString)
  | JObjectId _ | JArray _ | JObject _ => true
  end.

(** Truthiness of the result of a property read; [None] is [undefined]. *)
Definition truthy_opt (o : option JsValue) : bool :=
  match o with
  | Some v => truthy v
  | None => false
  end.

(** First binding of [k] in an object's own properties. *)
Fixpoint assoc (k : string) (props : list (string * JsValue)) : option JsValue :=
  match props with
  | [] => None
  | (k', v) :: rest => if String.eqb k' k then Some v else assoc k rest
  end.

(** Outcome of an evaluation step: a value, or a thrown [Error] with its
    [message]. *)
Inductive Completion (A : Type) : Type :=
| Normal (a : A)
| Throw (message : string).
Arguments Normal {A} a.
Arguments Throw {A} message.

(** [v.k] for one of the property names the handlers read ([id], [name],
    [subjects]): an own property of a plain object, [undefined] on an array
    or a primitive (none of these names is defined on their prototypes), a
    [TypeError] on [null].  The handlers read properties of [req.body] only,
    which is never an ObjectId. *)
Definition get_prop (v : JsValue) (k : string) : Completion (option JsValue) :=
  match v with
  | JNull =>
      Throw ("Cannot read properties of null (reading '" +:+ k +:+ "')")
  | JObject props => Normal (assoc k props)
  | _ => Normal None
  end.

(** Decimal form of an integer, as [Number.prototype.toString] prints the
    integers it prints without an exponent. *)
Definition decimal (n : Z) : string := NilZero.string_of_int (Z.to_int n).

Fixpoint join_strings (sep : string) (l : list string) : string :=
  match l with
  | [] => EmptyString
  | [s] => s
  | s :: rest => s +:+ sep +:+ join_strings sep rest
  end.

(** The string that [ToString] yields when it completes.  An array is
    joined with commas, [null] elements printing as the empty string; a
    plain object prints as [[object Object]], the result of
    [Object.prototype.toString]; an ObjectId prints its hexadecimal form. *)
Fixpoint printed (v : JsValue) : string :=
  match v with
  | JNull => "null"
  | JBool true => "true"
  | JBool false => "false"
  | JNumber n => decimal n
  | JString s => s
  | JObjectId h => h
  | JArray xs =>
      join_strings ","
        (map (fun x => match x with JNull => EmptyString | _ => printed x end) xs)
  | JObject _ => "[object Object]"
  end.

(** Whether [ToString] completes.  A plain object is converted by the
    first callable of its [toString] and [valueOf] that returns a
    primitive.  The values here are parsed request bodies, whose properties
    are never callable: an own [toString] hides
    [Object.prototype.toString], and what is left, the inherited or the
    own [valueOf], returns no primitive, so the conversion throws a
    [TypeError].  An array converts its elements in turn, skipping
    [null]. *)
Fixpoint converts (v : JsValue) : bool :=
  match v with
  | JArray xs => forallb converts xs
  | JObject props =>
      match assoc "toString" props with
      | Some _ => false
      | None => true
      end
  | _ => true
  end.

(** [ToString], the conversion a template literal [`${v}`] applies. *)
Definition ToString (v : JsValue) : Completion string :=
  if converts v then Normal (printed v)
  else Throw "Cannot convert object to primitive value".

(** The integers that a number holds exactly and prints in full, without
    an exponent: those below [2^53] in magnitude. *)
Definition safe_integer (n : Z) : bool := (Z.abs n <? 2 ^ 53)%Z.

(** Whether every number inside [v] is such an integer.  On these values
    [decimal] is the text that [Number.prototype.toString] and
    [JSON.stringify] print. *)
Fixpoint exact (v : JsValue) : bool :=
  match v with
  | JNumber n => safe_integer n
  | JArray xs => forallb exact xs
  | JObject props => forallb (fun kv => exact (snd kv)) props
  | _ => true
  end.

(** *** [parseInt]

    The Number results a handler or configuration line can observe:
    [NaN], the two infinities, and the finite integer-valued doubles
    (both zeros are [Finite 0]; they are equally falsy). *)
Inductive JsNumber : Type :=
| NaN
| Infinity (negative : bool)
| Finite (n : Z).

Definition number_truthy (x : JsNumber) : bool :=
  match x with
  | NaN => false
  | Infinity _ => true
  | Finite n => negb (n =? 0)%Z
  end.

(** The Number value of a mathematical integer: the nearest double, ties to
    even, an infinity beyond the largest finite double.  Integers below
    [2^53] in magnitude are exact. *)
Definition round_to_double (z : Z) : JsNumber :=
  let a := Z.abs z in
  if (a <? 2 ^ 53)%Z then Finite z
  else
    let e := (Z.log2 a - 52)%Z in
    let q := (a / 2 ^ e)%Z in
    let r := (a mod 2 ^ e)%Z in
    let half := (2 ^ (e - 1))%Z in
    let q' := if (r <? half)%Z then q
              else if (half <? r)%Z then (q + 1)%Z
              else if Z.even q then q else (q + 1)%Z in
    let m := (q' * 2 ^ e)%Z in
    if (2 ^ 1024 <=? m)%Z then Infinity (z <? 0)%Z
    else Finite (Z.sgn z * m)%Z.

(** White space that [parseInt] skips at the start of its input. *)
Definition is_str_whitespace (c : ascii) : bool :=
  let n := N_of_ascii c in
  ((9 <=? n) && (n <=? 13) || (n =? 32))%N.

Fixpoint trim_start (s : string) : string :=
  match s with
  | String c r => if is_str_whitespace c then trim_start r else s
  | EmptyString => s
  end.

(** Value of [c] as a digit of radix [radix] (at most 16), if it is one. *)
Definition digit_value (radix : Z) (c : ascii) : option Z :=
  let n := Z.of_N (N_of_ascii c) in
  let d := if ((48 <=? n) && (n <=? 57))%Z then Some (n - 48)%Z
           else if ((97 <=? n) && (n <=? 102))%Z then Some (n - 87)%Z
           else if ((65 <=? n) && (n <=? 70))%Z then Some (n - 55)%Z
           else None in
  match d with
  | Some k => if (k <? radix)%Z then Some k else None
  | None => None
  end.

(** Reads the longest prefix of radix-[radix] digits; [None] when it is
    empty, otherwise its value, accumulated from [acc]. *)
Fixpoint read_digits (radix : Z) (s : string) (acc : option Z) : option Z :=
  match s with
  | String c r =>
      match digit_value radix c with
      | Some k =>
          read_digits radix r
            (Some (match acc with Some a => a * radix + k | None => k end)%Z)
      | None => acc
      end
  | EmptyString => acc
  end.

Definition strip_sign (s : string) : bool * string :=
  match s with
  | String c r =>
      if Ascii.eqb c "-" then (true, r)
      else if Ascii.eqb c "+" then (false, r)
      else (false, s)
  | EmptyString => (false, s)
  end.

Definition strip_hex_prefix (s : string) : Z * string :=
  match s with
  | String c0 (String c1 r) =>
      if Ascii.eqb c0 "0" && (Ascii.eqb c1 "x" || Ascii.eqb c1 "X")
      then (16%Z, r) else (10%Z, s)
  | _ => (10%Z, s)
  end.

(** [parseInt(string)] with no radix argument, on an already converted
    string: leading white space is skipped, a sign is read, [0x]/[0X]
    selects radix 16, and the longest digit prefix is the value; no digit
    gives [NaN]. *)
Definition parseInt_string (input : string) : JsNumber :=
  let '(negative, s1) := strip_sign (trim_start input) in
  let '(radix, s2) := strip_hex_prefix s1 in
  match read_digits radix s2 None with
  | None => NaN
  | Some m => round_to_double (if negative then - m else m)%Z
  end.

(** [parseInt(process.env.X)]: an unset variable is [undefined], which
    [parseInt] first converts to the string ["undefined"]. *)
Definition parseInt (arg : option string) : JsNumber :=
  parseInt_string (match arg with Some s => s | None => "undefined" end).

End Js.

(* ===================================================================== *)
(** ** JSON text                                                          *)
(* ===================================================================== *)

Module JSON.
Import Js.

Local Open Scope char_scope.

(** *** [JSON.stringify] *)

(** The double-quote character is written by its code, ["034"]. *)

Definition hex_char (n : N) : ascii :=
  ascii_of_N (if (n <? 10)%N then 48 + n else 87 + n)%N.

(** [QuoteJSONString], one code unit: the two-character escapes, [\u00xx]
    for the other control characters, everything else as it is. *)
Definition quote_char (c : ascii) : list ascii :=
  let n := N_of_ascii c in
  if Ascii.eqb c "034" then ["\"; "034"]
  else if Ascii.eqb c "\" then ["\"; "\"]
  else if (n =? 8)%N then ["\"; "b"]
  else if (n =? 9)%N then ["\"; "t"]
  else if (n =? 10)%N then ["\"; "n"]
  else if (n =? 12)%N then ["\"; "f"]
  else if (n =? 13)%N then ["\"; "r"]
  else if (n <? 32)%N
       then ["\"; "u"; "0"; "0"; hex_char (n / 16); hex_char (n mod 16)]
  else [c].

Fixpoint quote_chars (s : list ascii) : list ascii :=
  match s with
  | [] => []
  | c :: r => quote_char c ++ quote_chars r
  end.

Definition quote (s : string) : list ascii :=
  "034" :: quote_chars (list_ascii_of_string s) ++ ["034"].

Fixpoint join_commas (parts : list (list ascii)) : list ascii :=
  match parts with
  | [] => []
  | [p] => p
  | p :: rest => p ++ "," :: join_commas rest
  end.

(** The text [JSON.stringify] produces, no indentation.  An ObjectId
    serializes through its [toJSON], the quoted hexadecimal string. *)
Fixpoint text (v : JsValue) : list ascii :=
  match v with
  | JNull => list_ascii_of_string "null"
  | JBool true => list_ascii_of_string "true"
  | JBool false => list_ascii_of_string "false"
  | JNumber n => list_ascii_of_string (decimal n)
  | JString s => quote s
  | JObjectId h => quote h
  | JArray xs => "[" :: join_commas (map text xs) ++ ["]"]
  | JObject fs =>
      "{" :: join_commas (map (fun kv => quote (fst kv) ++ ":" :: text (snd kv)) fs)
          ++ ["}"]
  end.

Definition stringify (v : JsValue) : string := string_of_list_ascii (text v).

(** What a value becomes once it went through JSON text: an ObjectId is
    the string of its hexadecimal form, everything else is itself. *)
Fixpoint jsonify (v : JsValue) : JsValue :=
  match v with
  | JObjectId h => JString h
  | JArray xs => JArray (map jsonify xs)
  | JObject fs => JObject (map (fun kv => (fst kv, jsonify (snd kv))) fs)
  | _ => v
  end.

(** *** [JSON.parse] *)

Definition is_ws (c : ascii) : bool :=
  let n := N_of_ascii c in
  ((n =? 32) || (n =? 9) || (n =? 10) || (n =? 13))%N.

Fixpoint skip_ws (s : list ascii) : list ascii :=
  match s with
  | c :: r => if is_ws c then skip_ws r else s
  | [] => []
  end.

Fixpoint strip_prefix (p s : list ascii) : option (list ascii) :=
  match p, s with
  | [], _ => Some s
  | a :: p', b :: s' => if Ascii.eqb a b then strip_prefix p' s' else None
  | _ :: _, [] => None
  end.

Definition hex_value (c : ascii) : option N :=
  let n := N_of_ascii c in
  if ((48 <=? n) && (n <=? 57))%N then Some (n - 48)%N
  else if ((97 <=? n) && (n <=? 102))%N then Some (n - 87)%N
  else if ((65 <=? n) && (n <=? 70))%N then Some (n - 55)%N
  else None.

(** The code unit of [\uh1h2h3h4], when it fits the one-byte characters of
    [string]. *)
Definition unicode_escape (h1 h2 h3 h4 : ascii) : option ascii :=
  match hex_value h1, hex_value h2, hex_value h3, hex_value h4 with
  | Some a, Some b, Some c, Some d =>
      let n := (((a * 16 + b) * 16 + c) * 16 + d)%N in
      if (n <? 256)%N then Some (ascii_of_N n) else None
  | _, _, _, _ => None
  end.

Definition simple_escape (e : ascii) : option ascii :=
  if Ascii.eqb e "034" then Some "034"
  else if Ascii.eqb e "\" then Some "\"
  else if Ascii.eqb e "/" then Some "/"
  else if Ascii.eqb e "b" then Some (ascii_of_N 8)
  else if Ascii.eqb e "f" then Some (ascii_of_N 12)
  else if Ascii.eqb e "n" then Some (ascii_of_N 10)
  else if Ascii.eqb e "r" then Some (ascii_of_N 13)
  else if Ascii.eqb e "t" then Some (ascii_of_N 9)
  else None.

Definition prepend (c : ascii) (o : option (list ascii * list ascii))
  : option (list ascii * list ascii) :=
  match o with
  | Some (cs, r) => Some (c :: cs, r)
  | None => None
  end.

(** The characters of a string literal, read after its opening quote, up to
    and including the closing quote. *)
Fixpoint parse_chars (s : list ascii) : option (list ascii * list ascii) :=
  match s with
  | [] => None
  | c :: r =>
      if Ascii.eqb c "034" then Some ([], r)
      else if Ascii.eqb c "\" then
        match r with
        | [] => None
        | e :: r1 =>
            if Ascii.eqb e "u" then
              match r1 with
              | h1 :: h2 :: h3 :: h4 :: r2 =>
                  match unicode_escape h1 h2 h3 h4 with
                  | Some u => prepend u (parse_chars r2)
                  | None => None
                  end
              | _ => None
              end
            else
              match simple_escape e with
              | Some u => prepend u (parse_chars r1)
              | None => None
              end
        end
      else if (N_of_ascii c <? 32)%N then None
      else prepend c (parse_chars r)
  end.

Definition parse_string (s : list ascii) : option (string * list ascii) :=
  match parse_chars s with
  | Some (cs, r) => Some (string_of_list_ascii cs, r)
  | None => None
  end.

Definition digit_of (c : ascii) : option (Decimal.uint -> Decimal.uint) :=
  match N_of_ascii c with
  | 48 => Some Decimal.D0 | 49 => Some Decimal.D1 | 50 => Some Decimal.D2
  | 51 => Some Decimal.D3 | 52 => Some Decimal.D4 | 53 => Some Decimal.D5
  | 54 => Some Decimal.D6 | 55 => Some Decimal.D7 | 56 => Some Decimal.D8
  | 57 => Some Decimal.D9
  | _ => None
  end%N.

Fixpoint scan_digits (s : list ascii) : Decimal.uint * list ascii :=
  match s with
  | c :: r =>
      match digit_of c with
      | Some D => let '(d, r') := scan_digits r in (D d, r')
      | None => (Decimal.Nil, s)
      end
  | [] => (Decimal.Nil, [])
  end.

(** A fraction or an exponent follows the integer part. *)
Definition continues_number (s : list ascii) : bool :=
  match s with
  | c :: _ => Ascii.eqb c "." || Ascii.eqb c "e" || Ascii.eqb c "E"
  | [] => false
  end.

(** The digits of an integer literal: at least one, no superfluous
    leading zero.  A literal that goes on with a fraction or an exponent
    denotes a number outside [JNumber] and is not read. *)
Definition parse_digits (negative : bool) (s : list ascii)
  : option (JsValue * list ascii) :=
  let '(d, r) := scan_digits s in
  match d with
  | Decimal.Nil => None
  | Decimal.D0 (Decimal.D0 _ | Decimal.D1 _ | Decimal.D2 _ | Decimal.D3 _
               | Decimal.D4 _ | Decimal.D5 _ | Decimal.D6 _ | Decimal.D7 _
               | Decimal.D8 _ | Decimal.D9 _) => None
  | _ =>
      if continues_number r then None
      else Some (JNumber (Z.of_int (if negative then Decimal.Neg d
                                    else Decimal.Pos d)), r)
  end.

(** An integer literal with its optional minus sign. *)
Definition parse_number (s : list ascii) : option (JsValue * list ascii) :=
  match s with
  | c :: r => if Ascii.eqb c "-" then parse_digits true r
              else parse_digits false s
  | [] => None
  end.

Definition starts_number (c : ascii) : bool :=
  Ascii.eqb c "-" || match digit_of c with Some _ => true | None => false end.

(** Elements of a non-empty array after its opening bracket, [pv] reading
    one value; [n] bounds the number of elements. *)
Fixpoint parse_elements (pv : list ascii -> option (JsValue * list ascii))
    (n : nat) (s : list ascii) : option (list JsValue * list ascii) :=
  match n with
  | O => None
  | S n' =>
      match pv s with
      | Some (v, r) =>
          match skip_ws r with
          | c :: r' =>
              if Ascii.eqb c "," then
                match parse_elements pv n' r' with
                | Some (vs, r'') => Some (v :: vs, r'')
                | None => None
                end
              else if Ascii.eqb c "]" then Some ([v], r')
              else None
          | [] => None
          end
      | None => None
      end
  end.

(** Members of a non-empty object after its opening brace, in the order
    written.  (A key written twice is kept twice; [JSON.stringify] never
    writes one twice.) *)
Fixpoint parse_members (pv : list ascii -> option (JsValue * list ascii))
    (n : nat) (s : list ascii)
  : option (list (string * JsValue) * list ascii) :=
  match n with
  | O => None
  | S n' =>
      match skip_ws s with
      | q :: r0 =>
          if Ascii.eqb q "034" then
            match parse_string r0 with
            | Some (k, r1) =>
                match skip_ws r1 with
                | colon :: r2 =>
                    if Ascii.eqb colon ":" then
                      match pv r2 with
                      | Some (v, r3) =>
                          match skip_ws r3 with
                          | c :: r4 =>
                              if Ascii.eqb c "," then
                                match parse_members pv n' r4 with
                                | Some (kvs, r5) => Some ((k, v) :: kvs, r5)
                                | None => None
                                end
                              else if Ascii.eqb c "}" then Some ([(k, v)], r4)
                              else None
                          | [] => None
                          end
                      | None => None
                      end
                    else None
                | [] => None
                end
            | None => None
            end
          else None
      | [] => None
      end
  end.

(** One JSON value and the rest of the input.  [fuel] bounds the nesting
    depth and the number of elements; the length of the input is enough. *)
Fixpoint parse_value (fuel : nat) (s : list ascii)
  : option (JsValue * list ascii) :=
  match fuel with
  | O => None
  | S fuel' =>
      match skip_ws s with
      | [] => None
      | c :: r =>
          if starts_number c then parse_number (c :: r)
          else if Ascii.eqb c "034" then
            match parse_string r with
            | Some (str, r') => Some (JString str, r')
            | None => None
            end
          else if Ascii.eqb c "[" then
            match skip_ws r with
            | c' :: r' =>
                if Ascii.eqb c' "]" then Some (JArray [], r')
                else
                  match parse_elements (parse_value fuel') fuel' r with
                  | Some (vs, r'') => Some (JArray vs, r'')
                  | None => None
                  end
            | [] => None
            end
          else if Ascii.eqb c "{" then
            match skip_ws r with
            | c' :: r' =>
                if Ascii.eqb c' "}" then Some (JObject [], r')
                else
                  match parse_members (parse_value fuel') fuel' r with
                  | Some (kvs, r'') => Some (JObject kvs, r'')
                  | None => None
                  end
            | [] => None
            end
          else if Ascii.eqb c "n" then
            match strip_prefix (list_ascii_of_string "ull") r with
            | Some r' => Some (JNull, r')
            | None => None
            end
          else if Ascii.eqb c "t" then
            match strip_prefix (list_ascii_of_string "rue") r with
            | Some r' => Some (JBool true, r')
            | None => None
            end
          else if Ascii.eqb c "f" then
            match strip_prefix (list_ascii_of_string "alse") r with
            | Some r' => Some (JBool false, r')
            | None => None
            end
          else None
      end
  end.

(** [JSON.parse]: one value, then nothing but white space.  [None] is the
    [SyntaxError] the real function throws. *)
Definition parse (input : string) : option JsValue :=
  let s := list_ascii_of_string input in
  match parse_value (S (length s)) s with
  | Some (v, r) =>
      match skip_ws r with
      | [] => Some v
      | _ :: _ => None
      end
  | None => None
  end.

(** *** Notions used to state the read-back lemmas *)

(** What may follow a value inside JSON text: the end of the input, a
    comma, or a closing bracket or brace. *)
Definition closing (rest : list ascii) : bool :=
  match rest with
  | [] => true
  | c :: _ => Ascii.eqb c "," || Ascii.eqb c "]" || Ascii.eqb c "}"
  end.

(** The characters of a run of decimal digits. *)
Definition uchars (d : Decimal.uint) : list ascii :=
  list_ascii_of_string (NilEmpty.string_of_uint d).

(** The digits of a positive number start with a non-zero digit. *)
Definition leading_nonzero (d : Decimal.uint) : Prop :=
  match d with
  | Decimal.Nil | Decimal.D0 _ => False
  | _ => True
  end.

(** Fuel that [parse_value] needs to read back the text of a value. *)
Fixpoint need (v : JsValue) : nat :=
  match v with
  | JArray xs => S (length xs + list_sum (map need xs))
  | JObject fs => S (length fs + list_sum (map (fun kv => need (snd kv)) fs))
  | _ => 1
  end.

(** [pv] reads the text of [x] back, whatever closes it. *)
Definition reads (pv : list ascii -> option (JsValue * list ascii))
    (x : JsValue) : Prop :=
  forall rest, closing rest = true -> pv (text x ++ rest) = Some (jsonify x, rest).

(** The text of one member of an object. *)
Definition member_text (kv : string * JsValue) : list ascii :=
  quote (fst kv) ++ ":" :: text (snd kv).

End JSON.

(* ===================================================================== *)
(** ** The server                                                         *)
(* ===================================================================== *)

Module Server.
Import Js.

(** *** Configuration

    [const CACHE_TTL = parseInt(process.env.CACHE_TTL) || 600;] *)
Definition CACHE_TTL (env_CACHE_TTL : option string) : JsNumber :=
  let parsed := parseInt env_CACHE_TTL in
  if number_truthy parsed then parsed else Finite 600.

(** *** The two external services

    Every call a handler awaits on [redisClient] or on a collection of
    [mongoClient.db(DB_NAME)]. *)
Inductive DriverCall : Type :=
| RedisGet (key : string)
| RedisSetEx (key : string) (seconds : JsNumber) (value : string)
| MongoFindOne (collection : string) (id : string)
| MongoInsertOne (collection : string) (doc : JsValue).

(** A key of the cache: the string stored, when it was stored and the
    expiry it was stored with. *)
Record CacheEntry : Type := {
  entry_value : string;
  entry_written : Z;
  entry_seconds : JsNumber
}.

(** The state outside the process: the collections of the database (in
    insertion order), the keys of the cache, the counter from which the
    driver draws fresh ObjectIds, and a journal of the driver calls made so
    far, oldest first. *)
Record State : Type := {
  db : gmap string (list JsValue);
  cache : gmap string CacheEntry;
  next_oid : N;
  calls : list DriverCall
}.

(** What a request runs against: the process environment variable
    [CACHE_TTL], the time of the request in seconds, and which driver calls
    the services reject (connection lost, duplicate [_id], expiry refused by
    the cache server, ...) together with the message of the error. *)
Record Env : Type := {
  env_CACHE_TTL : option string;
  now : Z;
  rejects : DriverCall -> option string
}.

Definition journal (c : DriverCall) (st : State) : State :=
  {| db := db st; cache := cache st; next_oid := next_oid st;
     calls := calls st ++ [c] |}.

Definition set_cache (m : gmap string CacheEntry) (st : State) : State :=
  {| db := db st; cache := m; next_oid := next_oid st; calls := calls st |}.

Definition set_db (d : gmap string (list JsValue)) (st : State) : State :=
  {| db := d; cache := cache st; next_oid := next_oid st; calls := calls st |}.

Definition set_next_oid (n : N) (st : State) : State :=
  {| db := db st; cache := cache st; next_oid := n; calls := calls st |}.

(** The documents of a collection; a collection never written is empty. *)
Definition collection (st : State) (name : string) : list JsValue :=
  default [] (db st !! name).

(** *** Asynchronous code: state passing with exceptions *)

Definition Async (A : Type) : Type := State -> Completion A * State.

Definition ret {A} (a : A) : Async A := fun st => (Normal a, st).

Definition throw {A} (message : string) : Async A := fun st => (Throw message, st).

Definition bind {A B} (m : Async A) (k : A -> Async B) : Async B :=
  fun st =>
    match m st with
    | (Normal a, st') => k a st'
    | (Throw e, st') => (Throw e, st')
    end.

Notation "'do' x <- m ; k" := (bind m (fun x => k))
  (at level 10, x name, m at level 100, k at level 200).

(** A synchronous step that may throw. *)
Definition eval {A} (c : Completion A) : Async A := fun st => (c, st).

(** One awaited driver call: it is journalled, then either rejected with the
    service's message or performed. *)
Definition driver {A} (env : Env) (c : DriverCall) (effect : State -> A * State)
  : Async A :=
  fun st =>
    let st1 := journal c st in
    match rejects env c with
    | Some message => (Throw message, st1)
    | None => let '(a, st2) := effect st1 in (Normal a, st2)
    end.

(** **** Cache *)

(** An entry is served until its expiry has elapsed. *)
Definition live (t : Z) (e : CacheEntry) : bool :=
  match entry_seconds e with
  | Finite n => (t <? entry_written e + n)%Z
  | Infinity false => true
  | Infinity true | NaN => false
  end.

Definition cache_read (t : Z) (m : gmap string CacheEntry) (key : string)
  : option string :=
  match m !! key with
  | Some e => if live t e then Some (entry_value e) else None
  | None => None
  end.

(** [redisClient.get(key)]: the string stored, [None] for [null]. *)
Definition redis_get (env : Env) (key : string) : Async (option string) :=
  driver env (RedisGet key)
    (fun st => (cache_read (now env) (cache st) key, st)).

(** [redisClient.setEx(key, seconds, value)] *)
Definition redis_setEx (env : Env) (key : string) (seconds : JsNumber)
    (value : string) : Async unit :=
  driver env (RedisSetEx key seconds value)
    (fun st =>
       (tt, set_cache (<[key := {| entry_value := value;
                                   entry_written := now env;
                                   entry_seconds := seconds |}]> (cache st)) st)).

(** **** Document store *)

(** The filter [{ id: studentId }] on one document: its [id] is that
    string, or an array with that string among its elements. *)
Definition matches_id (studentId : string) (doc : JsValue) : bool :=
  match doc with
  | JObject props =>
      match assoc "id" props with
      | Some (JString s) => String.eqb s studentId
      | Some (JArray xs) =>
          existsb (fun x => match x with
                            | JString s => String.eqb s studentId
                            | _ => false
                            end) xs
      | _ => false
      end
  | _ => false
  end.

(** [collection.findOne({ id: studentId })]: the first match, [None] for
    [null]. *)
Definition findOne (env : Env) (name : string) (studentId : string)
  : Async (option JsValue) :=
  driver env (MongoFindOne name studentId)
    (fun st => (List.find (matches_id studentId) (collection st name), st)).

Fixpoint hex_digits (k : nat) (n : N) (acc : string) : string :=
  match k with
  | O => acc
  | S k' => hex_digits k' (n / 16) (String (JSON.hex_char (n mod 16)) acc)
  end.

(** The ObjectId drawn from counter value [n], by its 24 hexadecimal
    digits. *)
Definition ObjectId (n : N) : JsValue := JObjectId (hex_digits 24 n EmptyString).

Fixpoint replace_prop (k : string) (v : JsValue) (props : list (string * JsValue))
  : list (string * JsValue) :=
  match props with
  | [] => []
  | (k', v') :: rest =>
      if String.eqb k' k then (k', v) :: rest
      else (k', v') :: replace_prop k v rest
  end.

Definition remove_prop (k : string) (props : list (string * JsValue))
  : list (string * JsValue) :=
  List.filter (fun kv => negb (String.eqb (fst kv) k)) props.

(** What the driver does to the object it is given before sending it: a
    document whose [_id] is missing or [null] gets a fresh ObjectId as its
    [_id], set on that very object (a missing property is added last). *)
Definition assign_id (props : list (string * JsValue)) (n : N)
  : list (string * JsValue) * N :=
  match assoc "_id" props with
  | None => (props ++ [("_id", ObjectId n)], N.succ n)
  | Some JNull => (replace_prop "_id" (ObjectId n) props, N.succ n)
  | Some _ => (props, n)
  end.

(** The document as the server keeps it: [_id] first, then the other
    fields in their order. *)
Definition stored (props : list (string * JsValue)) : JsValue :=
  JObject (("_id", default JNull (assoc "_id" props)) :: remove_prop "_id" props).

Definition append_doc (name : string) (doc : JsValue) (st : State) : State :=
  set_db (<[name := collection st name ++ [doc]]> (db st)) st.

(** [collection.insertOne(doc)].  The driver adds the [_id] to the object
    passed in, mutating it, then sends it.  The result is the [insertedId]
    of the driver's answer, paired with the object [doc] as the call leaves
    it: the caller's variable still refers to that object, now carrying its
    [_id].  (Validation lets only plain objects reach this call.) *)
Definition insertOne (env : Env) (name : string) (doc : JsValue)
  : Async (JsValue * JsValue) :=
  match doc with
  | JObject props =>
      fun st =>
        let '(props', n') := assign_id props (next_oid st) in
        (do _ <- driver env (MongoInsertOne name (JObject props'))
                (fun st1 => (tt, append_doc name (stored props') st1)) ;
         ret (default JNull (assoc "_id" props'), JObject props'))
          (set_next_oid n' st)
  | _ => throw "Cannot create property '_id'"
  end.

(** *** Responses *)

Record Response : Type := {
  status : nat;
  body : string
}.

(** [res.status(code).json(v)]; [res.json(v)] is the case [code = 200]. *)
Definition res_json (code : nat) (v : JsValue) : Response :=
  {| status := code; body := JSON.stringify v |}.

(** [try { ... } catch (err) { ... }] around the whole of a handler: the
    response of the body, or the one the catch block builds from
    [err.message]. *)
Definition try_catch (body : Async Response) (handler : string -> Response)
  : State -> Response * State :=
  fun st =>
    match body st with
    | (Normal r, st') => (r, st')
    | (Throw message, st') => (handler message, st')
    end.

Definition error_body (message : string) : JsValue :=
  JObject [("error", JString message)].

(** Evaluation of [`${o}`] for the result of a property read. *)
Definition template_literal (o : option JsValue) : Completion string :=
  match o with
  | Some v => ToString v
  | None => Normal "undefined"
  end.

(** The string that [`${o}`] evaluates to when its evaluation completes. *)
Definition template (o : option JsValue) : string :=
  match o with
  | Some v => printed v
  | None => "undefined"
  end.

(** [`result:${id}`] *)
Definition result_key (id : string) : string := "result:" +:+ id.

(** [if (cached)]: a string is truthy unless empty, [null] is falsy. *)
Definition cached_truthy (cached : option string) : bool :=
  match cached with
  | Some s => negb (String.eqb s EmptyString)
  | None => false
  end.

(** *** Handlers

    Console logging is left out, except that the property reads made for a
    log line are kept where the line is inside the [try]: they throw on a
    [null] body. *)

(** [app.post("/addStudent", ...)] *)
Definition addStudent (env : Env) (req_body : JsValue)
  : State -> Response * State :=
  try_catch
    (let studentData := req_body in
     do _ <- eval (get_prop studentData "id") ;
     do _ <- eval (get_prop studentData "name") ;
     do id <- eval (get_prop studentData "id") ;
     do name <- eval (get_prop studentData "name") ;
     if negb (truthy_opt id) || negb (truthy_opt name) then
       ret (res_json 400 (error_body "Invalid student data"))
     else
       do result <- insertOne env "students" studentData ;
       ret (res_json 201 (JObject [("message", JString "Student added");
                                   ("id", fst result)])))
    (fun _ => res_json 500 (error_body "Failed to add student")).

(** [app.get("/result/:id", ...)] *)
Definition getResult (env : Env) (studentId : string)
  : State -> Response * State :=
  try_catch
    (do cached <- redis_get env (result_key studentId) ;
     if cached_truthy cached then
       match JSON.parse (default EmptyString cached) with
       | Some v => ret (res_json 200 v)
       | None => throw "Unexpected token in JSON"
       end
     else
       do result <- findOne env "results" studentId ;
       match result with
       | None => ret (res_json 404 (error_body "Result not found"))
       | Some doc =>
           do _ <- redis_setEx env (result_key studentId)
                  (CACHE_TTL (env_CACHE_TTL env)) (JSON.stringify doc) ;
           ret (res_json 200 doc)
       end)
    (fun _ => res_json 500 (error_body "Failed to fetch result")).

(** [app.post("/addResult", ...)] *)
Definition addResult (env : Env) (req_body : JsValue)
  : State -> Response * State :=
  try_catch
    (let resultData := req_body in
     do _ <- eval (get_prop resultData "id") ;
     do id <- eval (get_prop resultData "id") ;
     do subjects <- eval (get_prop resultData "subjects") ;
     if negb (truthy_opt id) || negb (truthy_opt subjects) then
       ret (res_json 400 (error_body "Invalid result data"))
     else
       do inserted <- insertOne env "results" resultData ;
       let resultData := snd inserted in
       do id <- eval (get_prop resultData "id") ;
       do _ <- eval (template_literal id) ;
       do shown <- eval (template_literal id) ;
       do _ <- redis_setEx env (result_key shown)
              (CACHE_TTL (env_CACHE_TTL env)) (JSON.stringify resultData) ;
       ret (res_json 201 (JObject [("message", JString "Result added");
                                   ("id", fst inserted)])))
    (fun _ => res_json 500 (error_body "Failed to add result")).

(** *** Notions used to state the properties *)

(** The properties of a posted object once [insertOne] has assigned its
    [_id], in state [st]. *)
Definition id_assigned (props : list (string * JsValue)) (st : State)
  : list (string * JsValue) :=
  fst (assign_id props (next_oid st)).

(** The state an accepted [insertOne] of [JObject props] into collection
    [name] leaves. *)
Definition after_insert (name : string) (props : list (string * JsValue))
    (st : State) : State :=
  append_doc name (stored (id_assigned props st))
    (journal (MongoInsertOne name (JObject (id_assigned props st)))
       (set_next_oid (snd (assign_id props (next_oid st))) st)).

(** The [insertedId] of that call. *)
Definition inserted_id (props : list (string * JsValue)) (st : State) : JsValue :=
  default JNull (assoc "_id" (id_assigned props st)).

(** A field that is there but falsy: the empty string, [0], [false] or
    [null]. *)
Definition present_but_falsy (o : option JsValue) : Prop :=
  o = Some (JString EmptyString) \/ o = Some (JNumber 0) \/
  o = Some (JBool false) \/ o = Some JNull.

(** Every string in the cache is the serialization of some value: what
    holds of a cache that only this server writes. *)
Definition serialized_cache (st : State) : Prop :=
  forall key e, cache st !! key = Some e ->
                exists v, entry_value e = JSON.stringify v.

(** A driver call is a cache write made with expiry [seconds], or is not a
    cache write. *)
Definition written_with (seconds : JsNumber) (c : DriverCall) : Prop :=
  match c with
  | RedisSetEx _ t _ => t = seconds
  | _ => True
  end.

End Server.

(* ===================================================================== *)
(** ** Scenarios                                                          *)
(* ===================================================================== *)

Module Scenario.
Import Js Server.

(** Nothing stored, nothing cached, no call made yet. *)
Definition empty_state : State :=
  {| db := ∅; cache := ∅; next_oid := 0; calls := [] |}.

(** A request at time [t] with [CACHE_TTL] set as [ttl] and both services
    answering. *)
Definition request_at (ttl : option string) (t : Z) : Env :=
  {| env_CACHE_TTL := ttl; now := t; rejects := fun _ => None |}.

(** A request at time [t] while the document store is unreachable. *)
Definition store_down_at (ttl : option string) (t : Z) : Env :=
  {| env_CACHE_TTL := ttl; now := t;
     rejects := fun c => match c with
                         | MongoFindOne _ _ | MongoInsertOne _ _ =>
                             Some "connect ECONNREFUSED"
                         | _ => None
                         end |}.

(** A request at time [t] while the cache is unreachable. *)
Definition cache_down_at (ttl : option string) (t : Z) : Env :=
  {| env_CACHE_TTL := ttl; now := t;
     rejects := fun c => match c with
                         | RedisGet _ | RedisSetEx _ _ _ =>
                             Some "The client is closed"
                         | _ => None
                         end |}.

(** [{ id: "S1", subjects: { math: 90 } }] *)
Definition result_S1 : list (string * JsValue) :=
  [("id", JString "S1"); ("subjects", JObject [("math", JNumber 90)])].

(** [{ id: "S1", name: "Alice" }] *)
Definition student_S1 : list (string * JsValue) :=
  [("id", JString "S1"); ("name", JString "Alice")].

(** [{ id: 0, name: "Alice" }]: both fields are there, [id] is falsy. *)
Definition student_zero_id : list (string * JsValue) :=
  [("id", JNumber 0); ("name", JString "Alice")].

(** The state after [student_S1] was added to [empty_state]. *)
Definition one_student : State :=
  snd (addStudent (request_at None 0) (JObject student_S1) empty_state).

(** Result [S1] as [insertOne] leaves it in the handler's hands. *)
Definition document_S1 : JsValue :=
  JObject (result_S1 ++ [("_id", ObjectId 0)]).

(** The state after [result_S1] was ingested at time 0: stored and cached. *)
Definition ingested_S1 : State :=
  snd (addResult (request_at None 0) (JObject result_S1) empty_state).

(** The store holds result [S1]; the cache is empty. *)
Definition stored_S1 : State :=
  {| db := {[ "results" := [stored (result_S1 ++ [("_id", ObjectId 0)])] ]};
     cache := ∅; next_oid := 1; calls := [] |}.

(** [{ id: "S1", subjects: { math: 95 } }]: another result for [S1]. *)
Definition result_S1_again : list (string * JsValue) :=
  [("id", JString "S1"); ("subjects", JObject [("math", JNumber 95)])].

(** [{ id: 7, subjects: { math: 90 } }]: the [id] is a number. *)
Definition result_7 : list (string * JsValue) :=
  [("id", JNumber 7); ("subjects", JObject [("math", JNumber 90)])].


(** The store holds result [S1]; the cache holds an empty string under its
    key. *)
Definition empty_entry_S1 : State :=
  {| db := {[ "results" := [stored (result_S1 ++ [("_id", ObjectId 0)])] ]};
     cache := {[ "result:S1" := {| entry_value := EmptyString;
                                   entry_written := 0;
                                   entry_seconds := Finite 600 |} ]};
     next_oid := 1; calls := [] |}.

End Scenario.

(* ===================================================================== *)
(** ** The other routes and the life of the process                       *)
(* ===================================================================== *)

Module Service.
Import Js Server.

(** The driver calls of the routes that only read, of the health probe, and
    of start-up and shutdown. *)
Inductive ServiceCall : Type :=
| MongoFindAll (collection : string)
| MongoPing
| RedisPing
| MongoConnect
| RedisConnect
| MongoClose
| RedisQuit.

(** What such code runs against: which of these calls fail, with the
    message of the error, and the value of [new Date().toISOString()]. *)
Record Probe : Type := {
  refuses : ServiceCall -> option string;
  iso_time : string
}.

(** Code that awaits such calls: the calls made so far are passed along,
    oldest first. *)
Definition Script (A : Type) : Type :=
  list ServiceCall -> Completion A * list ServiceCall.

Definition done {A} (a : A) : Script A := fun log => (Normal a, log).

Definition and_then {A B} (m : Script A) (k : A -> Script B) : Script B :=
  fun log =>
    match m log with
    | (Normal a, log') => k a log'
    | (Throw e, log') => (Throw e, log')
    end.

Notation "'await' x <- m ; k" := (and_then m (fun x => k))
  (at level 10, x name, m at level 100, k at level 200).

(** One awaited call, answering [answer] unless it fails. *)
Definition call {A} (p : Probe) (c : ServiceCall) (answer : A) : Script A :=
  fun log =>
    match refuses p c with
    | Some message => (Throw message, log ++ [c])
    | None => (Normal answer, log ++ [c])
    end.

(** [try { ... } catch (err) { ... }] around a whole handler, started with
    no call made. *)
Definition attempt {R} (body : Script R) (handler : string -> R)
  : R * list ServiceCall :=
  match body [] with
  | (Normal r, log) => (r, log)
  | (Throw message, log) => (handler message, log)
  end.

(** [app.get("/getStudents", ...)]:
    [db.collection("students").find({}).toArray()], then [res.json]. *)
Definition getStudents (p : Probe) (st : State) : Response * list ServiceCall :=
  attempt
    (await students <- call p (MongoFindAll "students") (collection st "students") ;
     done (res_json 200 (JArray students)))
    (fun _ => res_json 500 (error_body "Failed to fetch students")).


(** How a promise awaited at start-up ends: it resolves, it is rejected
    with a reason, or it stays pending, as the connect of a cache client
    does while it keeps retrying an unreachable server. *)
Inductive Settles : Type :=
| Resolves
| Rejects (reason : JsValue)
| Pends.

(** What start-up runs against: the ends of [mongoClient.connect()] and of
    [redisClient.connect()].  An [Error] is an object with [message] and
    [stack]. *)
Record Boot : Type := {
  mongo_connect : Settles;
  redis_connect : Settles
}.

(** How a call of [connectDB] ends: its promise resolves, it ends the
    process with [process.exit(code)], its promise is rejected, or it never
    settles. *)
Inductive Outcome : Type :=
| Returns
| Exits (code : nat)
| Fails (message : string)
| Hangs.

(** The [catch] block of [connectDB]: it reads [error.message] and
    [error.stack] for the log, then calls [process.exit(1)]. *)
Definition connect_failed (error : JsValue) : Outcome :=
  match get_prop error "message" with
  | Throw message => Fails message
  | Normal _ =>
      match get_prop error "stack" with
      | Throw message => Fails message
      | Normal _ => Exits 1
      end
  end.

(** [async function connectDB()], with the connects attempted. *)
Definition connectDB (b : Boot) : Outcome * list ServiceCall :=
  match mongo_connect b with
  | Pends => (Hangs, [MongoConnect])
  | Rejects error => (connect_failed error, [MongoConnect])
  | Resolves =>
      match redis_connect b with
      | Pends => (Hangs, [MongoConnect; RedisConnect])
      | Rejects error => (connect_failed error, [MongoConnect; RedisConnect])
      | Resolves => (Returns, [MongoConnect; RedisConnect])
      end
  end.

(** The process after its start-up function was called: [app.listen] has
    been called, the process has exited, the function's promise was
    rejected, which the [unhandledRejection] handler only logs, or the
    function is still waiting. *)
Inductive Started : Type :=
| ListenCalled
| Exited (code : nat)
| Unhandled (message : string)
| Waiting.

(** The start-up function: [await connectDB(); app.listen(PORT, ...)]. *)
Definition start (b : Boot) : Started * list ServiceCall :=
  match connectDB b with
  | (Returns, log) => (ListenCalled, log)
  | (Exits code, log) => (Exited code, log)
  | (Fails message, log) => (Unhandled message, log)
  | (Hangs, log) => (Waiting, log)
  end.


End Service.

(* ===================================================================== *)
(** ** Sequences of requests                                              *)
(* ===================================================================== *)

Module Trace.
Import Js Server.

(** A request to one of the routes that can change the store or the
    cache. *)
Inductive Request : Type :=
| GetResult (studentId : string)
| AddResult (req_body : JsValue)
| AddStudent (req_body : JsValue).

Definition serve (env : Env) (r : Request) (st : State) : Response * State :=
  match r with
  | GetResult studentId => getResult env studentId st
  | AddResult req_body => addResult env req_body st
  | AddStudent req_body => addStudent env req_body st
  end.

(** The state after the requests of [trace], one after the other, each in
    its own environment. *)
Fixpoint run (trace : list (Env * Request)) (st : State) : State :=
  match trace with
  | [] => st
  | (env, r) :: rest => run rest (snd (serve env r st))
  end.

(** A document as the store keeps it after a validated insert: a non-null
    [_id] first and nowhere else, a truthy [id] and a truthy [required]
    field. *)
Definition stored_shape (required : string) (doc : JsValue) : Prop :=
  exists v rest,
    doc = JObject (("_id", v) :: rest)
    /\ v <> JNull
    /\ Forall (fun kv => fst kv <> "_id") rest
    /\ truthy_opt (assoc "id" rest) = true
    /\ truthy_opt (assoc required rest) = true.

Definition store_validated (st : State) : Prop :=
  Forall (stored_shape "subjects") (collection st "results")
  /\ Forall (stored_shape "name") (collection st "students").

(** Every key of the cache is [result:<s>] for some [s], and holds the
    serialization of an object that the [results] collection holds (in the
    order of fields the server keeps), whose [id] matches [s] or prints
    as [s]. *)
Definition cache_backed (st : State) : Prop :=
  forall key e,
    cache st !! key = Some e ->
    exists s props,
      key = result_key s
      /\ entry_value e = JSON.stringify (JObject props)
      /\ In (stored props) (collection st "results")
      /\ (matches_id s (JObject props) = true
          \/ template (assoc "id" props) = s).

End Trace.

(* ===================================================================== *)
(** ** Facts about JSON text                                              *)
(* ===================================================================== *)

Module JSONFacts.
Import Js JSON.

Local Open Scope char_scope.


Lemma closing_cases rest :
  closing rest = true ->
  rest = [] \/ exists r, rest = "," :: r \/ rest = "]" :: r \/ rest = "}" :: r.
Proof.
  destruct rest as [|c r]; [now left|]. simpl. intros H. right. exists r.
  apply orb_prop in H as [H|H]; [apply orb_prop in H as [H|H]|];
    apply Ascii.eqb_eq in H; subst; auto.
Qed.

Ltac closing_split H :=
  apply closing_cases in H as [->|[? [->|[->| ->]]]].

Lemma parse_chars_quote_char c tail :
  parse_chars (quote_char c ++ tail) = prepend c (parse_chars tail).
Proof.
  destruct c as [[] [] [] [] [] [] [] []]; reflexivity.
Qed.

Lemma parse_chars_quote_chars s rest :
  parse_chars (quote_chars s ++ "034" :: rest) = Some (s, rest).
Proof.
  induction s as [|c s IH]; [reflexivity|].
  simpl quote_chars. rewrite <- app_assoc, parse_chars_quote_char, IH.
  reflexivity.
Qed.

Lemma parse_string_quote s rest :
  parse_string (quote_chars (list_ascii_of_string s) ++ "034" :: rest)
  = Some (s, rest).
Proof.
  unfold parse_string. rewrite parse_chars_quote_chars.
  now rewrite string_of_list_ascii_of_string.
Qed.

(** **** Numbers *)


Lemma scan_digits_closing rest :
  closing rest = true -> scan_digits rest = (Decimal.Nil, rest).
Proof. intros H. closing_split H; reflexivity. Qed.

Lemma continues_number_closing rest :
  closing rest = true -> continues_number rest = false.
Proof. intros H. closing_split H; reflexivity. Qed.

Lemma scan_digits_uchars d rest :
  closing rest = true -> scan_digits (uchars d ++ rest) = (d, rest).
Proof.
  intros H. unfold uchars.
  induction d; simpl; rewrite ?IHd; auto using scan_digits_closing.
Qed.


Lemma to_uint_leading_nonzero p : leading_nonzero (Pos.to_uint p).
Proof.
  pose proof (DecimalZ.to_of (Decimal.Pos (Pos.to_uint p))) as E.
  change (Z.of_int (Decimal.Pos (Pos.to_uint p)))
    with (Z.of_int (Z.to_int (Z.pos p))) in E.
  rewrite DecimalZ.of_to in E. simpl in E. injection E as E.
  assert (Hnz : Decimal.nzhead (Pos.to_uint p) <> Decimal.Nil).
  { intros Hn. apply unorm_0 in Hn. rewrite <- E in Hn.
    now apply DecimalPos.Unsigned.to_uint_nonzero in Hn. }
  rewrite (unorm_nzhead _ Hnz) in E.
  pose proof (nzhead_nonzero (Pos.to_uint p)) as H0.
  rewrite <- E in H0, Hnz.
  destruct (Pos.to_uint p); simpl; auto. eapply H0; reflexivity.
Qed.

Lemma parse_digits_uchars negative d rest :
  d <> Decimal.Nil ->
  (forall d', d <> Decimal.D0 d' \/ d' = Decimal.Nil) ->
  closing rest = true ->
  parse_digits negative (uchars d ++ rest)
  = Some (JNumber (Z.of_int (if negative then Decimal.Neg d else Decimal.Pos d)),
          rest).
Proof.
  intros Hn Hz Hc. unfold parse_digits.
  rewrite (scan_digits_uchars d rest Hc), (continues_number_closing rest Hc).
  destruct d as [|d'|?|?|?|?|?|?|?|?|?]; try reflexivity; [congruence|].
  destruct (Hz d') as [H| ->]; [congruence|reflexivity].
Qed.

Lemma parse_number_decimal n rest :
  closing rest = true ->
  parse_number (list_ascii_of_string (decimal n) ++ rest) = Some (JNumber n, rest).
Proof.
  intros Hc. unfold decimal. destruct n as [|p|p]; simpl Z.to_int.
  - apply (parse_digits_uchars false (Decimal.D0 Decimal.Nil) rest);
      [discriminate| |assumption].
    intros d'. destruct d'; [now right|..]; left; discriminate.
  - pose proof (to_uint_leading_nonzero p) as Hd.
    assert (H := parse_digits_uchars false (Pos.to_uint p) rest).
    cbv iota in H. rewrite (DecimalZ.of_to (Z.pos p) : Z.of_int (Decimal.Pos _) = _) in H.
    unfold NilZero.string_of_int, NilZero.string_of_uint, uchars in *.
    destruct (Pos.to_uint p) eqn:E; simpl in Hd; try contradiction;
      (apply H; [discriminate| intros d'; left; discriminate | assumption]).
  - pose proof (to_uint_leading_nonzero p) as Hd.
    assert (H := parse_digits_uchars true (Pos.to_uint p) rest).
    cbv iota in H. rewrite (DecimalZ.of_to (Z.neg p) : Z.of_int (Decimal.Neg _) = _) in H.
    unfold NilZero.string_of_int, NilZero.string_of_uint, uchars in *.
    destruct (Pos.to_uint p) eqn:E; simpl in Hd; try contradiction;
      (apply H; [discriminate| intros d'; left; discriminate | assumption]).
Qed.

Lemma decimal_head n :
  exists c t, list_ascii_of_string (decimal n) = c :: t
              /\ starts_number c = true /\ is_ws c = false.
Proof.
  unfold decimal. destruct n as [|p|p]; simpl Z.to_int.
  - eexists _, _. repeat split; reflexivity.
  - pose proof (to_uint_leading_nonzero p) as Hd.
    unfold NilZero.string_of_int, NilZero.string_of_uint.
    destruct (Pos.to_uint p); simpl in Hd; try contradiction;
      eexists _, _; repeat split; reflexivity.
  - eexists _, _. repeat split; reflexivity.
Qed.

(** **** Values *)


Lemma skip_ws_head c r : is_ws c = false -> skip_ws (c :: r) = c :: r.
Proof. intros H. simpl. now rewrite H. Qed.

(** The text of a value starts with a character that is neither white
    space nor a closing bracket or brace. *)
Lemma text_head v :
  exists c t, text v = c :: t /\ is_ws c = false
              /\ Ascii.eqb c "]" = false /\ Ascii.eqb c "}" = false.
Proof.
  destruct v as [|[]|n|s|h|xs|fs];
    try (eexists _, _; repeat split; reflexivity).
  destruct (decimal_head n) as (c & t & E & Hs & Hw).
  exists c, t. simpl text. rewrite E. repeat split; auto.
  - destruct c as [[] [] [] [] [] [] [] []]; try reflexivity; discriminate.
  - destruct c as [[] [] [] [] [] [] [] []]; try reflexivity; discriminate.
Qed.

Lemma join_commas_cons p q rest :
  join_commas (p :: q :: rest) = p ++ "," :: join_commas (q :: rest).
Proof. reflexivity. Qed.

Lemma join_commas_head (p : list ascii) ps c t :
  p = c :: t -> exists t', join_commas (p :: ps) = c :: t'.
Proof.
  intros ->. destruct ps; [now exists t|].
  rewrite join_commas_cons. now eexists.
Qed.

Section Lists.
Variable pv : list ascii -> option (JsValue * list ascii).
#[local] Abbreviation reads := (reads pv).


Lemma parse_elements_more n s v r :
  pv s = Some (v, "," :: r) ->
  parse_elements pv (S n) s
  = match parse_elements pv n r with
    | Some (vs, r') => Some (v :: vs, r')
    | None => None
    end.
Proof. intros H. simpl. rewrite H. reflexivity. Qed.

Lemma parse_elements_last n s v r :
  pv s = Some (v, "]" :: r) -> parse_elements pv (S n) s = Some ([v], r).
Proof. intros H. simpl. rewrite H. reflexivity. Qed.

Lemma parse_elements_text xs : forall n rest,
  xs <> [] -> length xs <= n -> Forall reads xs ->
  parse_elements pv n (join_commas (map text xs) ++ "]" :: rest)
  = Some (map jsonify xs, rest).
Proof.
  induction xs as [|x xs IH]; intros n rest Hne Hlen Hall; [congruence|].
  destruct n as [|n]; [simpl in Hlen; lia|].
  apply Forall_cons in Hall as [Hx Hall].
  destruct xs as [|x2 xs].
  - apply parse_elements_last. now apply Hx.
  - change (map text (x :: x2 :: xs)) with (text x :: map text (x2 :: xs)).
    change (join_commas (text x :: map text (x2 :: xs)))
      with (text x ++ "," :: join_commas (map text (x2 :: xs))).
    rewrite <- app_assoc, <- app_comm_cons.
    erewrite parse_elements_more by now apply Hx.
    rewrite (IH n rest); [reflexivity|discriminate|simpl in *; lia|assumption].
Qed.


Lemma member_text_app k v tail :
  member_text (k, v) ++ tail
  = "034" :: (quote_chars (list_ascii_of_string k)
               ++ "034" :: (":" :: text v ++ tail)).
Proof. unfold member_text, quote. simpl. now rewrite <- !app_assoc. Qed.

Lemma parse_members_more n k s v r :
  pv s = Some (v, "," :: r) ->
  parse_members pv (S n)
    ("034" :: (quote_chars (list_ascii_of_string k) ++ "034" :: (":" :: s)))
  = match parse_members pv n r with
    | Some (kvs, r') => Some ((k, v) :: kvs, r')
    | None => None
    end.
Proof.
  intros H. cbn [parse_members]. rewrite skip_ws_head by reflexivity.
  change (Ascii.eqb "034" "034") with true. cbv iota.
  rewrite parse_string_quote. rewrite skip_ws_head by reflexivity.
  change (Ascii.eqb ":" ":") with true. cbv iota.
  rewrite H. reflexivity.
Qed.

Lemma parse_members_last n k s v r :
  pv s = Some (v, "}" :: r) ->
  parse_members pv (S n)
    ("034" :: (quote_chars (list_ascii_of_string k) ++ "034" :: (":" :: s)))
  = Some ([(k, v)], r).
Proof.
  intros H. cbn [parse_members]. rewrite skip_ws_head by reflexivity.
  change (Ascii.eqb "034" "034") with true. cbv iota.
  rewrite parse_string_quote. rewrite skip_ws_head by reflexivity.
  change (Ascii.eqb ":" ":") with true. cbv iota.
  rewrite H. reflexivity.
Qed.

Lemma parse_members_text fs : forall n rest,
  fs <> [] -> length fs <= n -> Forall (fun kv => reads (snd kv)) fs ->
  parse_members pv n (join_commas (map member_text fs) ++ "}" :: rest)
  = Some (map (fun kv => (fst kv, jsonify (snd kv))) fs, rest).
Proof.
  induction fs as [|[k v] fs IH]; intros n rest Hne Hlen Hall; [congruence|].
  destruct n as [|n]; [simpl in Hlen; lia|].
  apply Forall_cons in Hall as [Hx Hall]. simpl in Hx.
  destruct fs as [|kv2 fs].
  - simpl join_commas. rewrite member_text_app.
    apply parse_members_last. now apply Hx.
  - change (map member_text ((k, v) :: kv2 :: fs))
      with (member_text (k, v) :: map member_text (kv2 :: fs)).
    change (join_commas (member_text (k, v) :: map member_text (kv2 :: fs)))
      with (member_text (k, v) ++ "," :: join_commas (map member_text (kv2 :: fs))).
    rewrite <- app_assoc, member_text_app, <- app_comm_cons.
    erewrite parse_members_more by now apply Hx.
    rewrite (IH n rest); [reflexivity|discriminate|simpl in *; lia|assumption].
Qed.
End Lists.

Lemma parse_value_number f c t :
  is_ws c = false -> starts_number c = true ->
  parse_value (S f) (c :: t) = parse_number (c :: t).
Proof. intros Hw Hs. cbn [parse_value]. now rewrite skip_ws_head, Hs. Qed.

Lemma parse_value_string f s rest :
  parse_value (S f) (quote s ++ rest) = Some (JString s, rest).
Proof.
  unfold quote. rewrite <- app_comm_cons, <- app_assoc.
  change (["034"] ++ rest) with ("034" :: rest).
  cbn [parse_value]. rewrite skip_ws_head by reflexivity.
  change (starts_number "034") with false.
  change (Ascii.eqb "034" "034") with true. cbv iota.
  now rewrite parse_string_quote.
Qed.

Lemma parse_value_array f r c r' :
  skip_ws r = c :: r' -> Ascii.eqb c "]" = false ->
  parse_value (S f) ("[" :: r)
  = match parse_elements (parse_value f) f r with
    | Some (vs, r'') => Some (JArray vs, r'')
    | None => None
    end.
Proof.
  intros H1 H2. cbn [parse_value]. rewrite skip_ws_head by reflexivity.
  change (starts_number "[") with false. cbv iota.
  change (Ascii.eqb "[" "034") with false.
  change (Ascii.eqb "[" "[") with true. cbv iota.
  now rewrite H1, H2.
Qed.

Lemma parse_value_object f r c r' :
  skip_ws r = c :: r' -> Ascii.eqb c "}" = false ->
  parse_value (S f) ("{" :: r)
  = match parse_members (parse_value f) f r with
    | Some (kvs, r'') => Some (JObject kvs, r'')
    | None => None
    end.
Proof.
  intros H1 H2. cbn [parse_value]. rewrite skip_ws_head by reflexivity.
  change (starts_number "{") with false. cbv iota.
  change (Ascii.eqb "{" "034") with false.
  change (Ascii.eqb "{" "[") with false.
  change (Ascii.eqb "{" "{") with true. cbv iota.
  now rewrite H1, H2.
Qed.

Lemma list_sum_bound {A} (g : A -> nat) (l : list A) x :
  In x l -> g x <= list_sum (map g l).
Proof.
  induction l as [|y l IH]; simpl; [tauto|].
  intros [->|H]; [lia|]. specialize (IH H). lia.
Qed.

(** Reading back the text of a value gives the value, up to [jsonify]. *)
Lemma parse_value_text v : forall fuel rest,
  need v <= fuel -> closing rest = true ->
  parse_value fuel (text v ++ rest) = Some (jsonify v, rest).
Proof.
  induction v as [|b|n|s|h|xs IH|fs IH] using JsValue_nested_ind;
    intros fuel rest Hf Hc;
    (destruct fuel as [|f]; [simpl in Hf; lia|]).
  - closing_split Hc; reflexivity.
  - destruct b; closing_split Hc; reflexivity.
  - destruct (decimal_head n) as (c & t & E & Hs & Hw).
    simpl text. rewrite E, <- app_comm_cons, parse_value_number by assumption.
    rewrite app_comm_cons, <- E. now apply parse_number_decimal.
  - apply parse_value_string.
  - apply (parse_value_string f h rest).
  - simpl text. rewrite <- app_comm_cons, <- app_assoc.
    change (["]"] ++ rest) with ("]" :: rest).
    destruct xs as [|x xs]; [reflexivity|].
    destruct (text_head x) as (c & t & E & Hw & Hb & _).
    destruct (join_commas_head (text x) (map text xs) c t E) as (t' & Ej).
    simpl in Hf.
    erewrite parse_value_array;
      [| change (map text (x :: xs)) with (text x :: map text xs);
         rewrite Ej, <- app_comm_cons; now apply skip_ws_head | assumption].
    rewrite parse_elements_text; [reflexivity|discriminate|simpl; lia|].
    apply Forall_forall. intros y Hy rest' Hc'.
    rewrite Forall_forall in IH. apply IH; [assumption| |assumption].
    apply list_elem_of_In in Hy.
    pose proof (list_sum_bound need (x :: xs) y Hy) as Hb'. simpl in Hb'. lia.
  - change (text (JObject fs))
      with ("{" :: join_commas (map member_text fs) ++ ["}"]).
    rewrite <- app_comm_cons, <- app_assoc.
    change (["}"] ++ rest) with ("}" :: rest).
    destruct fs as [|[k v] fs]; [reflexivity|].
    simpl in Hf.
    destruct (join_commas_head (member_text (k, v)) (map member_text fs)
                "034" (quote_chars (list_ascii_of_string k)
                         ++ "034" :: ":" :: text v)) as (t' & Ej).
    { unfold member_text, quote. simpl. now rewrite <- app_assoc. }
    erewrite parse_value_object;
      [| change (map member_text ((k, v) :: fs))
           with (member_text (k, v) :: map member_text fs);
         rewrite Ej, <- app_comm_cons; now apply skip_ws_head
       | reflexivity].
    rewrite parse_members_text; [reflexivity|discriminate|simpl; lia|].
    apply Forall_forall. intros y Hy rest' Hc'.
    rewrite Forall_forall in IH. apply (IH y Hy); [|assumption].
    apply list_elem_of_In in Hy.
    pose proof (list_sum_bound (fun kv => need (snd kv)) ((k, v) :: fs) y Hy) as Hb'.
    simpl in Hb'. lia.
Qed.

Lemma join_commas_length (ps : list (list ascii)) :
  length ps + list_sum (map (@length ascii) ps) <= S (length (join_commas ps)).
Proof.
  induction ps as [|p ps IH]; [simpl; lia|].
  destruct ps as [|q ps]; [simpl; lia|].
  rewrite join_commas_cons, length_app. simpl in *. lia.
Qed.

Lemma list_sum_le {A} (g h : A -> nat) (l : list A) :
  Forall (fun x => g x <= h x) l -> list_sum (map g l) <= list_sum (map h l).
Proof. induction 1; simpl; lia. Qed.

Lemma need_le_length v : need v <= length (text v).
Proof.
  induction v as [|b|n|s|h|xs IH|fs IH] using JsValue_nested_ind;
    try (simpl; lia).
  - destruct b; simpl; lia.
  - destruct (decimal_head n) as (c & t & E & _). simpl. rewrite E. simpl. lia.
  - change (need (JArray xs)) with (S (length xs + list_sum (map need xs))).
    change (text (JArray xs)) with ("[" :: join_commas (map text xs) ++ ["]"]).
    cbn [length]. rewrite length_app. cbn [length].
    pose proof (join_commas_length (map text xs)) as H.
    rewrite length_map, map_map in H.
    pose proof (list_sum_le need (fun x => length (text x)) xs IH). lia.
  - change (need (JObject fs))
      with (S (length fs + list_sum (map (fun kv => need (snd kv)) fs))).
    change (text (JObject fs))
      with ("{" :: join_commas
                     (map (fun kv => quote (fst kv) ++ ":" :: text (snd kv)) fs)
                ++ ["}"]).
    cbn [length]. rewrite length_app. cbn [length].
    pose proof (join_commas_length
                  (map (fun kv => quote (fst kv) ++ ":" :: text (snd kv)) fs)) as H.
    rewrite length_map, map_map in H.
    assert (Hle : list_sum (map (fun kv => need (snd kv)) fs)
                  <= list_sum (map (fun kv => length (quote (fst kv)
                                              ++ ":" :: text (snd kv))) fs)).
    { apply list_sum_le. eapply Forall_impl; [exact IH|].
      intros kv Hkv. cbn beta in *. rewrite length_app. cbn [length]. lia. }
    lia.
Qed.

(** [JSON.parse(JSON.stringify(v))] is [v] with its ObjectIds turned into
    strings. *)
Lemma parse_stringify v : parse (stringify v) = Some (jsonify v).
Proof.
  unfold parse, stringify. rewrite list_ascii_of_string_of_list_ascii.
  rewrite <- (app_nil_r (text v)) at 2.
  rewrite parse_value_text; [reflexivity| |reflexivity].
  pose proof (need_le_length v). lia.
Qed.

Lemma text_jsonify v : text (jsonify v) = text v.
Proof.
  induction v as [|b|n|s|h|xs IH|fs IH] using JsValue_nested_ind;
    try reflexivity.
  - simpl. f_equal. f_equal. f_equal. rewrite map_map.
    apply map_ext_Forall. exact IH.
  - simpl. f_equal. f_equal. f_equal. rewrite map_map.
    apply map_ext_Forall. eapply Forall_impl; [exact IH|].
    intros kv Hkv. simpl. now rewrite Hkv.
Qed.

(** Serializing what was read back gives the same text again. *)
Lemma stringify_jsonify v : stringify (jsonify v) = stringify v.
Proof. unfold stringify. now rewrite text_jsonify. Qed.

Lemma stringify_nonempty v : stringify v <> EmptyString.
Proof.
  unfold stringify. destruct (text_head v) as (c & t & E & _). now rewrite E.
Qed.

Lemma truthy_stringify v : negb (String.eqb (stringify v) EmptyString) = true.
Proof.
  destruct (String.eqb_spec (stringify v) EmptyString) as [E|]; [|reflexivity].
  now apply stringify_nonempty in E.
Qed.

End JSONFacts.

(* ===================================================================== *)
(** ** Facts about the driver calls and the handlers                      *)
(* ===================================================================== *)

Module ServerFacts.
Import Js Server.

Lemma driver_ok {A} env c (effect : State -> A * State) st :
  rejects env c = None ->
  driver env c effect st
  = (Normal (fst (effect (journal c st))), snd (effect (journal c st))).
Proof. intros H. unfold driver. rewrite H. now destruct (effect _). Qed.

Lemma driver_rejected {A} env c (effect : State -> A * State) st message :
  rejects env c = Some message ->
  driver env c effect st = (Throw message, journal c st).
Proof. intros H. unfold driver. now rewrite H. Qed.

Lemma parse_empty : JSON.parse EmptyString = None.
Proof. reflexivity. Qed.

Lemma parse_some_truthy text v :
  JSON.parse text = Some v -> cached_truthy (Some text) = true.
Proof.
  intros H. simpl. destruct (String.eqb_spec text EmptyString) as [->|];
    [now rewrite parse_empty in H | reflexivity].
Qed.

(** **** [GET /result/:id], path by path *)

Section GetResult.
Variables (env : Env) (st : State) (studentId : string).
Let key := result_key studentId.
Let ttl := CACHE_TTL (env_CACHE_TTL env).

Lemma getResult_get_rejected message :
  rejects env (RedisGet key) = Some message ->
  getResult env studentId st
  = (res_json 500 (error_body "Failed to fetch result"), journal (RedisGet key) st).
Proof.
  intros H. unfold getResult, try_catch, bind, redis_get.
  now rewrite (driver_rejected _ _ _ _ _ H).
Qed.

Lemma getResult_hit text v :
  rejects env (RedisGet key) = None ->
  cache_read (now env) (cache st) key = Some text ->
  JSON.parse text = Some v ->
  getResult env studentId st = (res_json 200 v, journal (RedisGet key) st).
Proof.
  intros Hg Hc Hp. unfold getResult, try_catch, bind, redis_get.
  rewrite (driver_ok _ _ _ _ Hg). simpl. fold key. rewrite Hc.
  rewrite (parse_some_truthy _ _ Hp). simpl. now rewrite Hp.
Qed.

Lemma getResult_hit_unreadable text :
  rejects env (RedisGet key) = None ->
  cache_read (now env) (cache st) key = Some text ->
  text <> EmptyString ->
  JSON.parse text = None ->
  getResult env studentId st
  = (res_json 500 (error_body "Failed to fetch result"), journal (RedisGet key) st).
Proof.
  intros Hg Hc Hne Hp. unfold getResult, try_catch, bind, redis_get.
  rewrite (driver_ok _ _ _ _ Hg). simpl. fold key. rewrite Hc. simpl.
  destruct (String.eqb_spec text EmptyString) as [|_]; [contradiction|].
  simpl. now rewrite Hp.
Qed.

Lemma getResult_find_rejected message :
  rejects env (RedisGet key) = None ->
  cached_truthy (cache_read (now env) (cache st) key) = false ->
  rejects env (MongoFindOne "results" studentId) = Some message ->
  getResult env studentId st
  = (res_json 500 (error_body "Failed to fetch result"),
     journal (MongoFindOne "results" studentId) (journal (RedisGet key) st)).
Proof.
  intros Hg Hc Hf. unfold getResult, try_catch, bind, redis_get, findOne.
  rewrite (driver_ok _ _ _ _ Hg). simpl. fold key. rewrite Hc.
  now rewrite (driver_rejected _ _ _ _ _ Hf).
Qed.

Lemma getResult_not_found :
  rejects env (RedisGet key) = None ->
  cached_truthy (cache_read (now env) (cache st) key) = false ->
  rejects env (MongoFindOne "results" studentId) = None ->
  List.find (matches_id studentId) (collection st "results") = None ->
  getResult env studentId st
  = (res_json 404 (error_body "Result not found"),
     journal (MongoFindOne "results" studentId) (journal (RedisGet key) st)).
Proof.
  intros Hg Hc Hf Hn. unfold getResult, try_catch, bind, redis_get, findOne.
  rewrite (driver_ok _ _ _ _ Hg). simpl. fold key. rewrite Hc.
  rewrite (driver_ok _ _ _ _ Hf). simpl.
  change (collection _ "results") with (collection st "results").
  now rewrite Hn.
Qed.

Lemma getResult_set_rejected doc message :
  rejects env (RedisGet key) = None ->
  cached_truthy (cache_read (now env) (cache st) key) = false ->
  rejects env (MongoFindOne "results" studentId) = None ->
  List.find (matches_id studentId) (collection st "results") = Some doc ->
  rejects env (RedisSetEx key ttl (JSON.stringify doc)) = Some message ->
  getResult env studentId st
  = (res_json 500 (error_body "Failed to fetch result"),
     journal (RedisSetEx key ttl (JSON.stringify doc))
       (journal (MongoFindOne "results" studentId) (journal (RedisGet key) st))).
Proof.
  intros Hg Hc Hf Hd Hs.
  unfold getResult, try_catch, bind, redis_get, findOne, redis_setEx.
  rewrite (driver_ok _ _ _ _ Hg). simpl. fold key. rewrite Hc.
  rewrite (driver_ok _ _ _ _ Hf). simpl.
  change (collection _ "results") with (collection st "results").
  rewrite Hd. fold ttl. now rewrite (driver_rejected _ _ _ _ _ Hs).
Qed.

Lemma getResult_found doc :
  rejects env (RedisGet key) = None ->
  cached_truthy (cache_read (now env) (cache st) key) = false ->
  rejects env (MongoFindOne "results" studentId) = None ->
  List.find (matches_id studentId) (collection st "results") = Some doc ->
  rejects env (RedisSetEx key ttl (JSON.stringify doc)) = None ->
  getResult env studentId st
  = (res_json 200 doc,
     set_cache (<[key := {| entry_value := JSON.stringify doc;
                            entry_written := now env;
                            entry_seconds := ttl |}]> (cache st))
       (journal (RedisSetEx key ttl (JSON.stringify doc))
          (journal (MongoFindOne "results" studentId)
             (journal (RedisGet key) st)))).
Proof.
  intros Hg Hc Hf Hd Hs.
  unfold getResult, try_catch, bind, redis_get, findOne, redis_setEx.
  rewrite (driver_ok _ _ _ _ Hg). simpl. fold key. rewrite Hc.
  rewrite (driver_ok _ _ _ _ Hf). simpl.
  change (collection _ "results") with (collection st "results").
  rewrite Hd. fold ttl. now rewrite (driver_ok _ _ _ _ Hs).
Qed.

End GetResult.

(** **** [insertOne] *)

Lemma assoc_app_other k k' v props :
  k <> k' -> assoc k (props ++ [(k', v)]) = assoc k props.
Proof.
  intros Hne. induction props as [|[k0 v0] props IH]; simpl.
  - destruct (String.eqb_spec k' k); congruence.
  - now rewrite IH.
Qed.

Lemma assoc_app_new k v props :
  assoc k props = None -> assoc k (props ++ [(k, v)]) = Some v.
Proof.
  induction props as [|[k0 v0] props IH]; simpl.
  - now rewrite String.eqb_refl.
  - destruct (String.eqb k0 k); [discriminate|exact IH].
Qed.

Lemma assoc_replace_other k k' v props :
  k <> k' -> assoc k (replace_prop k' v props) = assoc k props.
Proof.
  intros Hne. induction props as [|[k0 v0] props IH]; simpl; [reflexivity|].
  destruct (String.eqb_spec k0 k') as [->|]; simpl.
  - destruct (String.eqb_spec k' k); congruence.
  - now rewrite IH.
Qed.

(** Assigning [_id] leaves every other property as it was. *)
Lemma assoc_id_assigned k props st :
  k <> "_id" -> assoc k (id_assigned props st) = assoc k props.
Proof.
  intros Hne. unfold id_assigned, assign_id.
  destruct (assoc "_id" props) as [[]|]; simpl;
    auto using assoc_app_other, assoc_replace_other.
Qed.



Lemma insertOne_ok env name props st :
  rejects env (MongoInsertOne name (JObject (id_assigned props st))) = None ->
  insertOne env name (JObject props) st
  = (Normal (inserted_id props st, JObject (id_assigned props st)),
     after_insert name props st).
Proof.
  intros H. unfold insertOne, after_insert, inserted_id, id_assigned in *.
  destruct (assign_id props (next_oid st)) as [props' n'] eqn:E.
  simpl in *. unfold bind. now rewrite (driver_ok _ _ _ _ H).
Qed.

Lemma insertOne_rejected env name props st message :
  rejects env (MongoInsertOne name (JObject (id_assigned props st))) = Some message ->
  insertOne env name (JObject props) st
  = (Throw message,
     journal (MongoInsertOne name (JObject (id_assigned props st)))
       (set_next_oid (snd (assign_id props (next_oid st))) st)).
Proof.
  intros H. unfold insertOne, id_assigned in *.
  destruct (assign_id props (next_oid st)) as [props' n'] eqn:E.
  simpl in *. unfold bind. now rewrite (driver_rejected _ _ _ _ _ H).
Qed.

(** **** [POST /addResult] and [POST /addStudent], path by path *)

Lemma addResult_invalid env st body o1 o2 :
  get_prop body "id" = Normal o1 ->
  get_prop body "subjects" = Normal o2 ->
  truthy_opt o1 && truthy_opt o2 = false ->
  addResult env body st = (res_json 400 (error_body "Invalid result data"), st).
Proof.
  intros H1 H2 Hv. unfold addResult, try_catch, bind, eval.
  rewrite H1, H2.
  replace (negb (truthy_opt o1) || negb (truthy_opt o2)) with true;
    [reflexivity|].
  destruct (truthy_opt o1), (truthy_opt o2); simpl in *; congruence.
Qed.

Lemma addStudent_invalid env st body o1 o2 :
  get_prop body "id" = Normal o1 ->
  get_prop body "name" = Normal o2 ->
  truthy_opt o1 && truthy_opt o2 = false ->
  addStudent env body st = (res_json 400 (error_body "Invalid student data"), st).
Proof.
  intros H1 H2 Hv. unfold addStudent, try_catch, bind, eval.
  rewrite H1, H2.
  replace (negb (truthy_opt o1) || negb (truthy_opt o2)) with true;
    [reflexivity|].
  destruct (truthy_opt o1), (truthy_opt o2); simpl in *; congruence.
Qed.

Lemma addStudent_ok env st props :
  truthy_opt (assoc "id" props) = true ->
  truthy_opt (assoc "name" props) = true ->
  rejects env (MongoInsertOne "students" (JObject (id_assigned props st))) = None ->
  addStudent env (JObject props) st
  = (res_json 201 (JObject [("message", JString "Student added");
                            ("id", inserted_id props st)]),
     after_insert "students" props st).
Proof.
  intros H1 H2 Hi. unfold addStudent, try_catch, bind, eval. simpl get_prop.
  cbv iota beta. rewrite H1, H2.
  change (negb true || negb true) with false. cbv iota beta.
  now rewrite (insertOne_ok _ _ _ _ Hi).
Qed.


Lemma template_literal_cases o :
  template_literal o = Normal (template o)
  \/ template_literal o = Throw "Cannot convert object to primitive value".
Proof.
  destruct o as [v|]; simpl; [unfold ToString|]; [|now left].
  destruct (converts v); [now left|now right].
Qed.

Lemma addResult_ok env st props :
  truthy_opt (assoc "id" props) = true ->
  truthy_opt (assoc "subjects" props) = true ->
  template_literal (assoc "id" props) = Normal (template (assoc "id" props)) ->
  rejects env (MongoInsertOne "results" (JObject (id_assigned props st))) = None ->
  rejects env (RedisSetEx (result_key (template (assoc "id" props)))
                 (CACHE_TTL (env_CACHE_TTL env))
                 (JSON.stringify (JObject (id_assigned props st)))) = None ->
  addResult env (JObject props) st
  = (res_json 201 (JObject [("message", JString "Result added");
                            ("id", inserted_id props st)]),
     set_cache
       (<[result_key (template (assoc "id" props)) :=
            {| entry_value := JSON.stringify (JObject (id_assigned props st));
               entry_written := now env;
               entry_seconds := CACHE_TTL (env_CACHE_TTL env) |}]> (cache st))
       (journal (RedisSetEx (result_key (template (assoc "id" props)))
                   (CACHE_TTL (env_CACHE_TTL env))
                   (JSON.stringify (JObject (id_assigned props st))))
          (after_insert "results" props st))).
Proof.
  intros H1 H2 Hc Hi Hs. unfold addResult, try_catch, bind, eval. simpl get_prop.
  cbv iota beta. rewrite H1, H2.
  change (negb true || negb true) with false. cbv iota beta.
  rewrite (insertOne_ok _ _ _ _ Hi). cbv iota beta. simpl snd. simpl fst.
  simpl get_prop. cbv iota beta.
  rewrite (assoc_id_assigned "id" props st) by discriminate.
  rewrite Hc. cbv iota beta.
  unfold redis_setEx. now rewrite (driver_ok _ _ _ _ Hs).
Qed.

(** An [id] that cannot be converted to a string is met after the insert:
    the document is stored, nothing is cached, the answer is 500. *)
Lemma addResult_unprintable env st props :
  truthy_opt (assoc "id" props) = true ->
  truthy_opt (assoc "subjects" props) = true ->
  template_literal (assoc "id" props)
  = Throw "Cannot convert object to primitive value" ->
  rejects env (MongoInsertOne "results" (JObject (id_assigned props st))) = None ->
  addResult env (JObject props) st
  = (res_json 500 (error_body "Failed to add result"),
     after_insert "results" props st).
Proof.
  intros H1 H2 Hc Hi. unfold addResult, try_catch, bind, eval. simpl get_prop.
  cbv iota beta. rewrite H1, H2.
  change (negb true || negb true) with false. cbv iota beta.
  rewrite (insertOne_ok _ _ _ _ Hi). cbv iota beta. simpl snd. simpl fst.
  simpl get_prop. cbv iota beta.
  rewrite (assoc_id_assigned "id" props st) by discriminate.
  rewrite Hc. reflexivity.
Qed.

Lemma addResult_insert_rejected env st props message :
  truthy_opt (assoc "id" props) = true ->
  truthy_opt (assoc "subjects" props) = true ->
  rejects env (MongoInsertOne "results" (JObject (id_assigned props st)))
  = Some message ->
  addResult env (JObject props) st
  = (res_json 500 (error_body "Failed to add result"),
     journal (MongoInsertOne "results" (JObject (id_assigned props st)))
       (set_next_oid (snd (assign_id props (next_oid st))) st)).
Proof.
  intros H1 H2 Hi. unfold addResult, try_catch, bind, eval. simpl get_prop.
  cbv iota beta. rewrite H1, H2.
  change (negb true || negb true) with false. cbv iota beta.
  now rewrite (insertOne_rejected _ _ _ _ _ Hi).
Qed.

Lemma addResult_set_rejected env st props message :
  truthy_opt (assoc "id" props) = true ->
  truthy_opt (assoc "subjects" props) = true ->
  template_literal (assoc "id" props) = Normal (template (assoc "id" props)) ->
  rejects env (MongoInsertOne "results" (JObject (id_assigned props st))) = None ->
  rejects env (RedisSetEx (result_key (template (assoc "id" props)))
                 (CACHE_TTL (env_CACHE_TTL env))
                 (JSON.stringify (JObject (id_assigned props st)))) = Some message ->
  addResult env (JObject props) st
  = (res_json 500 (error_body "Failed to add result"),
     journal (RedisSetEx (result_key (template (assoc "id" props)))
                (CACHE_TTL (env_CACHE_TTL env))
                (JSON.stringify (JObject (id_assigned props st))))
       (after_insert "results" props st)).
Proof.
  intros H1 H2 Hc Hi Hs. unfold addResult, try_catch, bind, eval. simpl get_prop.
  cbv iota beta. rewrite H1, H2.
  change (negb true || negb true) with false. cbv iota beta.
  rewrite (insertOne_ok _ _ _ _ Hi). cbv iota beta. simpl snd. simpl fst.
  simpl get_prop. cbv iota beta.
  rewrite (assoc_id_assigned "id" props st) by discriminate.
  rewrite Hc. cbv iota beta.
  unfold redis_setEx. now rewrite (driver_rejected _ _ _ _ _ Hs).
Qed.

(** A 201 is the answer of one path only: an object with truthy [id] and
    [subjects], an [id] that converts to a string, an insert and a cache
    write that are accepted. *)
Lemma addResult_created env st req_body :
  status (fst (addResult env req_body st)) = 201 ->
  exists props,
    req_body = JObject props
    /\ truthy_opt (assoc "id" props) = true
    /\ truthy_opt (assoc "subjects" props) = true
    /\ template_literal (assoc "id" props) = Normal (template (assoc "id" props))
    /\ rejects env (MongoInsertOne "results" (JObject (id_assigned props st)))
       = None
    /\ rejects env (RedisSetEx (result_key (template (assoc "id" props)))
                      (CACHE_TTL (env_CACHE_TTL env))
                      (JSON.stringify (JObject (id_assigned props st)))) = None.
Proof.
  destruct req_body as [| | | | | |props]; try (intros H; discriminate H).
  intros H. exists props. split; [reflexivity|].
  destruct (truthy_opt (assoc "id" props)) eqn:T1.
  2:{ rewrite (addResult_invalid env st (JObject props) _ _ eq_refl eq_refl) in H;
        [discriminate H | now rewrite T1]. }
  destruct (truthy_opt (assoc "subjects" props)) eqn:T2.
  2:{ rewrite (addResult_invalid env st (JObject props) _ _ eq_refl eq_refl) in H;
        [discriminate H | rewrite T2; apply andb_false_r]. }
  destruct (rejects env (MongoInsertOne "results" (JObject (id_assigned props st))))
    as [m|] eqn:Hi.
  { rewrite (addResult_insert_rejected env st props m T1 T2 Hi) in H.
    discriminate H. }
  destruct (template_literal_cases (assoc "id" props)) as [Hc|Hc].
  2:{ rewrite (addResult_unprintable env st props T1 T2 Hc Hi) in H.
      discriminate H. }
  destruct (rejects env (RedisSetEx (result_key (template (assoc "id" props)))
                           (CACHE_TTL (env_CACHE_TTL env))
                           (JSON.stringify (JObject (id_assigned props st)))))
    as [m|] eqn:Hs.
  { rewrite (addResult_set_rejected env st props m T1 T2 Hc Hi Hs) in H.
    discriminate H. }
  repeat split; assumption.
Qed.

End ServerFacts.

(* ===================================================================== *)
(** ** The definitions on small inputs                                    *)
(* ===================================================================== *)

Module Examples.
Import Js Server.

Example parseInt_samples :
  parseInt (Some "600") = Finite 600
  /\ parseInt (Some " -5") = Finite (-5)
  /\ parseInt (Some "0x10") = Finite 16
  /\ parseInt (Some "12abc") = Finite 12
  /\ parseInt (Some "abc") = NaN
  /\ parseInt (Some EmptyString) = NaN
  /\ parseInt None = NaN
  /\ parseInt (Some "9007199254740993") = Finite 9007199254740992.
Proof. repeat split; reflexivity. Qed.

Example ToString_samples :
  ToString (JArray [JNumber 1; JNull; JString "a"; JArray [JNumber (-2)]])
  = Normal "1,,a,-2"
  /\ ToString (JObject [("a", JNull)]) = Normal "[object Object]"
  /\ ToString (JNumber 90) = Normal "90"
  /\ ToString (JObject [("toString", JNumber 1)])
     = Throw "Cannot convert object to primitive value"
  /\ ToString (JArray [JString "a"; JObject [("toString", JNull)]])
     = Throw "Cannot convert object to primitive value".
Proof. repeat split; reflexivity. Qed.

Example parse_samples :
  JSON.parse " { } " = Some (JObject [])
  /\ JSON.parse "[1, [true, null], -20]"
     = Some (JArray [JNumber 1; JArray [JBool true; JNull]; JNumber (-20)])
  /\ JSON.parse (JSON.stringify Scenario.document_S1)
     = Some (JObject (Scenario.result_S1
                        ++ [("_id", JString "000000000000000000000000")]))
  /\ JSON.parse "01" = None
  /\ JSON.parse "[1,]" = None
  /\ JSON.parse "{" = None
  /\ JSON.parse EmptyString = None.
Proof. repeat split; vm_compute; reflexivity. Qed.

Example lookup_after_expiry :
  calls (snd (getResult (Scenario.request_at None 600) "S1" Scenario.ingested_S1))
  = calls Scenario.ingested_S1
    ++ [RedisGet "result:S1"; MongoFindOne "results" "S1";
        RedisSetEx "result:S1" (Finite 600)
          (JSON.stringify (stored (Scenario.result_S1 ++ [("_id", ObjectId 0)])))].
Proof. vm_compute. reflexivity. Qed.

End Examples.

(* ===================================================================== *)
(** ** The cache only holds serialized documents                          *)
(* ===================================================================== *)

Import Js Server ServerFacts.

Lemma serialized_cache_empty : serialized_cache Scenario.empty_state.
Proof. intros key e H. discriminate H. Qed.

Lemma serialized_cache_insert st key v written seconds st' :
  serialized_cache st ->
  cache st' = <[key := {| entry_value := JSON.stringify v;
                          entry_written := written;
                          entry_seconds := seconds |}]> (cache st) ->
  serialized_cache st'.
Proof.
  intros Hst E k e. rewrite E, lookup_insert. case_decide.
  - intros [= <-]. now exists v.
  - apply Hst.
Qed.

Lemma serialized_cache_same st st' :
  serialized_cache st -> cache st' = cache st -> serialized_cache st'.
Proof. intros Hst E k e. rewrite E. apply Hst. Qed.

Lemma insertOne_cache env name doc st :
  cache (snd (insertOne env name doc st)) = cache st.
Proof.
  destruct doc as [| | | | | |props]; try reflexivity.
  unfold insertOne. destruct (assign_id props (next_oid st)) as [props' n'].
  unfold bind, driver, ret. simpl. now destruct (rejects env _).
Qed.

Lemma getResult_serialized env s st :
  serialized_cache st -> serialized_cache (snd (getResult env s st)).
Proof.
  intros Hst.
  unfold getResult, try_catch, bind, redis_get, findOne, redis_setEx, driver,
    ret, throw.
  repeat case_match; simplify_eq; simpl;
    first [ eapply serialized_cache_same; [exact Hst | reflexivity]
          | eapply serialized_cache_insert; [exact Hst | reflexivity] ].
Qed.

Lemma addStudent_serialized env req_body st :
  serialized_cache st -> serialized_cache (snd (addStudent env req_body st)).
Proof.
  intros Hst. apply (serialized_cache_same st); [exact Hst|].
  unfold addStudent, try_catch, bind, eval.
  destruct (get_prop req_body "id"); [|reflexivity].
  destruct (get_prop req_body "name"); [|reflexivity].
  destruct (negb _ || negb _); [reflexivity|].
  pose proof (insertOne_cache env "students" req_body st) as E.
  now destruct (insertOne env "students" req_body st) as [[?|?] ?].
Qed.

Lemma addResult_serialized env req_body st :
  serialized_cache st -> serialized_cache (snd (addResult env req_body st)).
Proof.
  intros Hst. unfold addResult, try_catch, bind, eval.
  destruct (get_prop req_body "id"); [|exact Hst].
  destruct (get_prop req_body "subjects"); [|exact Hst].
  destruct (negb _ || negb _); [exact Hst|].
  pose proof (insertOne_cache env "results" req_body st) as E.
  destruct (insertOne env "results" req_body st) as [[ins|?] st1]; simpl in E;
    [|now apply (serialized_cache_same st)].
  destruct (get_prop (snd ins) "id") as [id|];
    [|now apply (serialized_cache_same st)].
  destruct (template_literal id) as [shown|];
    [|now apply (serialized_cache_same st)].
  unfold redis_setEx, driver, ret. simpl.
  destruct (rejects env _); simpl.
  - now apply (serialized_cache_same st).
  - eapply (serialized_cache_insert st); [exact Hst|]. simpl. now rewrite E.
Qed.

(** An entry of such a cache is read back by [JSON.parse], and serializing
    what was read gives the entry again. *)
Lemma serialized_entry_parses st t key text :
  serialized_cache st ->
  cache_read t (cache st) key = Some text ->
  exists v, JSON.parse text = Some v /\ JSON.stringify v = text.
Proof.
  intros Hst H. unfold cache_read in H.
  destruct (cache st !! key) as [e|] eqn:E; [|discriminate].
  destruct (live t e); [|discriminate]. injection H as <-.
  destruct (Hst key e E) as [v ->]. exists (JSON.jsonify v).
  split; [apply JSONFacts.parse_stringify | apply JSONFacts.stringify_jsonify].
Qed.

(* ===================================================================== *)
(** ** Properties of the result lookup (GET /result/:id)                  *)
(* ===================================================================== *)

(** C1.  For every student id [s], lookup follows the cache-aside
    algorithm.  It first reads the cache entry of key [result:] followed by
    [s].  If an entry is present it is deserialized and returned, and the
    state left is the one before with only that cache read journalled: the
    Persistent Store is not consulted.  If it is absent the [results]
    collection is queried for a document whose [id] equals [s]; a document
    found is serialized, written into the cache under the same key with the
    fixed TTL, and returned.

    The first part is for a cache whose entries are serialized documents,
    as every cache written by this server is; the response body then is the
    entry itself.  The second part is for any entry that [JSON.parse]
    accepts. *)
Theorem lookup_follows_cache_aside (env : Env) (st : State) (s : string) :
  let key := "result:" +:+ s in
  let ttl := CACHE_TTL (env_CACHE_TTL env) in
  rejects env (RedisGet key) = None ->
  (serialized_cache st ->
   forall text,
     cache_read (now env) (cache st) key = Some text ->
     exists v,
       JSON.parse text = Some v
       /\ getResult env s st = (res_json 200 v, journal (RedisGet key) st)
       /\ body (fst (getResult env s st)) = text)
  /\
  (forall text v,
      cache_read (now env) (cache st) key = Some text ->
      JSON.parse text = Some v ->
      getResult env s st = (res_json 200 v, journal (RedisGet key) st))
  /\
  (forall doc,
      cache_read (now env) (cache st) key = None ->
      rejects env (MongoFindOne "results" s) = None ->
      List.find (matches_id s) (collection st "results") = Some doc ->
      rejects env (RedisSetEx key ttl (JSON.stringify doc)) = None ->
      getResult env s st
      = (res_json 200 doc,
         set_cache (<[key := {| entry_value := JSON.stringify doc;
                                entry_written := now env;
                                entry_seconds := ttl |}]> (cache st))
           (journal (RedisSetEx key ttl (JSON.stringify doc))
              (journal (MongoFindOne "results" s)
                 (journal (RedisGet key) st))))).
Proof.
  intros key ttl Hget. split; [|split].
  - intros Hst text Hc.
    destruct (serialized_entry_parses st _ _ _ Hst Hc) as (v & Hp & Hv).
    exists v. rewrite (getResult_hit env st s text v Hget Hc Hp).
    repeat split; [exact Hp | exact Hv].
  - intros text v Hc Hp. now apply getResult_hit with (text := text).
  - intros doc Hc Hf Hd Hs. apply getResult_found; auto.
    unfold result_key. fold key. now rewrite Hc.
Qed.

Lemma lookup_follows_cache_aside_witness :
  getResult (Scenario.store_down_at None 10) "S1" Scenario.ingested_S1
  = (res_json 200 (JSON.jsonify Scenario.document_S1),
     journal (RedisGet "result:S1") Scenario.ingested_S1)
  /\ fst (getResult (Scenario.request_at None 10) "S1" Scenario.stored_S1)
     = res_json 200 (stored (Scenario.result_S1 ++ [("_id", ObjectId 0)])).
Proof.
  split.
  - apply (proj1 (proj2 (lookup_follows_cache_aside
                           (Scenario.store_down_at None 10)
                           Scenario.ingested_S1 "S1" eq_refl))
             (JSON.stringify Scenario.document_S1)); vm_compute; reflexivity.
  - rewrite (proj2 (proj2 (lookup_follows_cache_aside
                             (Scenario.request_at None 10)
                             Scenario.stored_S1 "S1" eq_refl))
               (stored (Scenario.result_S1 ++ [("_id", ObjectId 0)])));
      vm_compute; reflexivity.
Defined.

(** C3.  For every student id [s] such that the cache holds no entry for
    [result:<s>] and the [results] collection holds no document whose [id]
    is [s], lookup answers 404 with body [{error: "Result not found"}] and
    leaves the cache as it was: no entry is written for [s]. *)
Theorem lookup_unknown_is_not_found (env : Env) (st : State) (s : string) :
  rejects env (RedisGet ("result:" +:+ s)) = None ->
  rejects env (MongoFindOne "results" s) = None ->
  cache st !! ("result:" +:+ s) = None ->
  Forall (fun doc => matches_id s doc = false) (collection st "results") ->
  fst (getResult env s st) = res_json 404 (JObject [("error", JString "Result not found")])
  /\ status (fst (getResult env s st)) = 404
  /\ cache (snd (getResult env s st)) = cache st
  /\ cache (snd (getResult env s st)) !! ("result:" +:+ s) = None
  /\ db (snd (getResult env s st)) = db st.
Proof.
  intros Hg Hf Hc Hn.
  assert (Hfind : List.find (matches_id s) (collection st "results") = None).
  { induction Hn as [|d l Hd _ IH]; simpl; [reflexivity|]. now rewrite Hd. }
  assert (Hmiss : cached_truthy (cache_read (now env) (cache st) (result_key s))
                  = false).
  { unfold cache_read, result_key. now rewrite Hc. }
  rewrite (getResult_not_found env st s Hg Hmiss Hf Hfind).
  simpl. repeat split; auto.
Qed.

Lemma lookup_unknown_is_not_found_witness :
  fst (getResult (Scenario.request_at None 0) "UNKNOWN" Scenario.empty_state)
  = res_json 404 (JObject [("error", JString "Result not found")])
  /\ cache (snd (getResult (Scenario.request_at None 0) "UNKNOWN"
                    Scenario.empty_state)) = ∅.
Proof.
  destruct (lookup_unknown_is_not_found (Scenario.request_at None 0)
              Scenario.empty_state "UNKNOWN")
    as (H1 & _ & H2 & _); try reflexivity.
  - constructor.
  - split; [exact H1 | exact H2].
Defined.

(** C5.  After a cold lookup of [s] that misses the cache, finds the
    document in the store and succeeds, a later lookup of [s] within the
    TTL window returns the same response and does not query the Persistent
    Store: whatever the store then holds or answers, the only driver call
    made is the cache read. *)
Theorem second_lookup_served_from_cache
    (env1 env2 : Env) (st st2 : State) (s : string) (doc : JsValue) (n : Z) :
  let key := "result:" +:+ s in
  rejects env1 (RedisGet key) = None ->
  cached_truthy (cache_read (now env1) (cache st) key) = false ->
  rejects env1 (MongoFindOne "results" s) = None ->
  List.find (matches_id s) (collection st "results") = Some doc ->
  CACHE_TTL (env_CACHE_TTL env1) = Finite n ->
  rejects env1 (RedisSetEx key (Finite n) (JSON.stringify doc)) = None ->
  (now env1 <= now env2 < now env1 + n)%Z ->
  rejects env2 (RedisGet key) = None ->
  cache st2 !! key = cache (snd (getResult env1 s st)) !! key ->
  fst (getResult env1 s st) = res_json 200 doc
  /\ fst (getResult env2 s st2) = fst (getResult env1 s st)
  /\ snd (getResult env2 s st2) = journal (RedisGet key) st2.
Proof.
  intros key Hg1 Hmiss Hf Hd Httl Hs Hwin Hg2 Hsame.
  assert (E1 := getResult_found env1 st s doc Hg1 Hmiss Hf Hd).
  rewrite Httl in E1. specialize (E1 Hs).
  rewrite E1 in Hsame |- *. simpl in Hsame. unfold result_key in Hsame.
  fold key in Hsame. rewrite lookup_insert_eq in Hsame.
  assert (Hread : cache_read (now env2) (cache st2) (result_key s)
                  = Some (JSON.stringify doc)).
  { unfold cache_read, result_key. fold key. rewrite Hsame. unfold live. simpl.
    destruct (Z.ltb_spec (now env2) (now env1 + n)); [reflexivity|lia]. }
  rewrite (getResult_hit env2 st2 s _ _ Hg2 Hread (JSONFacts.parse_stringify doc)).
  simpl. repeat split.
  unfold res_json. now rewrite JSONFacts.stringify_jsonify.
Qed.

Lemma second_lookup_served_from_cache_witness :
  fst (getResult (Scenario.store_down_at None 599) "S1"
         (snd (getResult (Scenario.request_at None 0) "S1" Scenario.stored_S1)))
  = fst (getResult (Scenario.request_at None 0) "S1" Scenario.stored_S1).
Proof.
  apply (second_lookup_served_from_cache
           (Scenario.request_at None 0) (Scenario.store_down_at None 599)
           Scenario.stored_S1
           (snd (getResult (Scenario.request_at None 0) "S1" Scenario.stored_S1))
           "S1" (stored (Scenario.result_S1 ++ [("_id", ObjectId 0)])) 600);
    try (vm_compute; reflexivity).
  simpl. lia.
Defined.

(** C6.  For every student id [s], if the cache read, the store query or
    the cache write that lookup performs raises an error, lookup answers
    500 with the generic body [{error: "Failed to fetch result"}], the same
    whatever the message of the error, which is not part of it.  The failed
    call is the last one made: it is not retried, and no result is
    returned. *)
Theorem lookup_failure_is_generic_500
    (env : Env) (st : State) (s : string) (message : string) :
  let key := "result:" +:+ s in
  let ttl := CACHE_TTL (env_CACHE_TTL env) in
  let failed :=
    res_json 500 (JObject [("error", JString "Failed to fetch result")]) in
  (rejects env (RedisGet key) = Some message ->
   getResult env s st = (failed, journal (RedisGet key) st))
  /\
  (rejects env (RedisGet key) = None ->
   cached_truthy (cache_read (now env) (cache st) key) = false ->
   rejects env (MongoFindOne "results" s) = Some message ->
   getResult env s st
   = (failed, journal (MongoFindOne "results" s) (journal (RedisGet key) st)))
  /\
  (forall doc,
      rejects env (RedisGet key) = None ->
      cached_truthy (cache_read (now env) (cache st) key) = false ->
      rejects env (MongoFindOne "results" s) = None ->
      List.find (matches_id s) (collection st "results") = Some doc ->
      rejects env (RedisSetEx key ttl (JSON.stringify doc)) = Some message ->
      getResult env s st
      = (failed,
         journal (RedisSetEx key ttl (JSON.stringify doc))
           (journal (MongoFindOne "results" s) (journal (RedisGet key) st)))).
Proof.
  intros key ttl failed. repeat split.
  - intros H. now apply getResult_get_rejected with (message := message).
  - intros Hg Hc Hf. now apply getResult_find_rejected with (message := message).
  - intros doc Hg Hc Hf Hd Hs.
    now apply getResult_set_rejected with (message := message).
Qed.

Lemma lookup_failure_is_generic_500_witness :
  getResult (Scenario.cache_down_at None 0) "S1" Scenario.stored_S1
  = (res_json 500 (JObject [("error", JString "Failed to fetch result")]),
     journal (RedisGet "result:S1") Scenario.stored_S1)
  /\ fst (getResult (Scenario.store_down_at None 0) "S1" Scenario.stored_S1)
     = res_json 500 (JObject [("error", JString "Failed to fetch result")]).
Proof.
  split.
  - apply (proj1 (lookup_failure_is_generic_500 (Scenario.cache_down_at None 0)
                    Scenario.stored_S1 "S1" "The client is closed")).
    reflexivity.
  - rewrite (proj1 (proj2 (lookup_failure_is_generic_500
                             (Scenario.store_down_at None 0)
                             Scenario.stored_S1 "S1" "connect ECONNREFUSED")));
      reflexivity.
Defined.

(* ===================================================================== *)
(** ** Properties of the write endpoints                                  *)
(* ===================================================================== *)

(** C4.  For every request body that lacks [id] or lacks [subjects],
    [POST /addResult] answers 400 and the state is the one before: nothing
    is written to the Persistent Store, nothing to the cache, and no driver
    call is made. *)
Theorem ingest_rejects_missing_field (env : Env) (st : State) (req_body : JsValue) :
  get_prop req_body "id" = Normal None
  \/ get_prop req_body "subjects" = Normal None ->
  addResult env req_body st
  = (res_json 400 (JObject [("error", JString "Invalid result data")]), st)
  /\ status (fst (addResult env req_body st)) = 400.
Proof.
  intros H.
  assert (E : addResult env req_body st
              = (res_json 400 (error_body "Invalid result data"), st)).
  { destruct req_body as [| | | | | |props];
      try (destruct H as [H|H]; discriminate H);
      try (eapply addResult_invalid; reflexivity).
    simpl in H.
    eapply addResult_invalid; try reflexivity.
    destruct H as [H|H]; injection H as ->; simpl;
      [reflexivity | apply andb_false_r]. }
  rewrite E. split; reflexivity.
Qed.

Lemma ingest_rejects_missing_field_witness :
  addResult (Scenario.request_at None 0)
    (JObject [("subjects", JObject [("math", JNumber 90)])]) Scenario.empty_state
  = (res_json 400 (JObject [("error", JString "Invalid result data")]),
     Scenario.empty_state).
Proof.
  apply (ingest_rejects_missing_field (Scenario.request_at None 0)
           Scenario.empty_state
           (JObject [("subjects", JObject [("math", JNumber 90)])])).
  left. reflexivity.
Defined.

(** C10.  Validation on both write endpoints is by truthiness, not mere
    presence.  A [POST /addResult] body whose [id] or [subjects] is present
    but falsy (empty string, [0], [false] or [null]), and a
    [POST /addStudent] body whose [id] or [name] is present but falsy, are
    answered 400 exactly as the body without any field is, and the state is
    the one before: no store write, no cache write. *)
Theorem falsy_fields_rejected_like_absent
    (env : Env) (st : State) (props : list (string * JsValue)) :
  (present_but_falsy (assoc "id" props)
   \/ present_but_falsy (assoc "subjects" props) ->
   addResult env (JObject props) st
   = (res_json 400 (JObject [("error", JString "Invalid result data")]), st)
   /\ addResult env (JObject props) st = addResult env (JObject []) st)
  /\
  (present_but_falsy (assoc "id" props)
   \/ present_but_falsy (assoc "name" props) ->
   addStudent env (JObject props) st
   = (res_json 400 (JObject [("error", JString "Invalid student data")]), st)
   /\ addStudent env (JObject props) st = addStudent env (JObject []) st).
Proof.
  assert (Hfalsy : forall o, present_but_falsy o -> truthy_opt o = false).
  { intros o [->|[->|[->| ->]]]; reflexivity. }
  split; intros H.
  - assert (E : addResult env (JObject props) st
                = (res_json 400 (error_body "Invalid result data"), st)).
    { eapply addResult_invalid; try reflexivity.
      destruct H as [H|H]; rewrite (Hfalsy _ H);
        [reflexivity | apply andb_false_r]. }
    split; [exact E | rewrite E; reflexivity].
  - assert (E : addStudent env (JObject props) st
                = (res_json 400 (error_body "Invalid student data"), st)).
    { eapply addStudent_invalid; try reflexivity.
      destruct H as [H|H]; rewrite (Hfalsy _ H);
        [reflexivity | apply andb_false_r]. }
    split; [exact E | rewrite E; reflexivity].
Qed.

Lemma falsy_fields_rejected_like_absent_witness :
  addResult (Scenario.request_at None 0)
    (JObject [("id", JString "S1"); ("subjects", JNumber 0)]) Scenario.empty_state
  = (res_json 400 (JObject [("error", JString "Invalid result data")]),
     Scenario.empty_state)
  /\ addStudent (Scenario.request_at None 0)
       (JObject [("id", JString EmptyString); ("name", JString "Alice")])
       Scenario.empty_state
     = (res_json 400 (JObject [("error", JString "Invalid student data")]),
        Scenario.empty_state).
Proof.
  split.
  - apply (proj1 (falsy_fields_rejected_like_absent (Scenario.request_at None 0)
                    Scenario.empty_state
                    [("id", JString "S1"); ("subjects", JNumber 0)])).
    right. right. left. reflexivity.
  - apply (proj2 (falsy_fields_rejected_like_absent (Scenario.request_at None 0)
                    Scenario.empty_state
                    [("id", JString EmptyString); ("name", JString "Alice")])).
    left. left. reflexivity.
Defined.

(** C8, as stated, fails: [{ id: 0, name: "Alice" }] has both [id] and
    [name], yet it is answered 400 and no document is inserted. *)
Lemma addStudent_present_fields_not_inserted :
  assoc "id" Scenario.student_zero_id <> None
  /\ assoc "name" Scenario.student_zero_id <> None
  /\ status (fst (addStudent (Scenario.request_at None 0)
                    (JObject Scenario.student_zero_id) Scenario.empty_state))
     = 400
  /\ status (fst (addStudent (Scenario.request_at None 0)
                    (JObject Scenario.student_zero_id) Scenario.empty_state))
     <> 201
  /\ collection (snd (addStudent (Scenario.request_at None 0)
                        (JObject Scenario.student_zero_id) Scenario.empty_state))
       "students" = [].
Proof. repeat split; try discriminate; reflexivity. Qed.

Lemma collection_after_insert name props st :
  collection (after_insert name props st) name
  = collection st name ++ [stored (id_assigned props st)].
Proof.
  unfold after_insert, append_doc, collection at 1. simpl.
  now rewrite lookup_insert_eq.
Qed.

(** C8, amended.  [POST /addStudent] requires [id] and [name] to be truthy:
    when either is missing or falsy, in particular for the empty body, it
    answers 400 with body [{error: "Invalid student data"}] and writes
    nothing.  When both are truthy it inserts the document without looking
    at the documents already stored: provided the store accepts the insert,
    the answer is 201 and the document is appended to the collection,
    whether or not a student with the same [id] is there already. *)
Theorem addStudent_validates_then_inserts
    (env : Env) (st : State) (props : list (string * JsValue)) :
  (truthy_opt (assoc "id" props) = false
   \/ truthy_opt (assoc "name" props) = false ->
   addStudent env (JObject props) st
   = (res_json 400 (JObject [("error", JString "Invalid student data")]), st))
  /\
  addStudent env (JObject []) st
  = (res_json 400 (JObject [("error", JString "Invalid student data")]), st)
  /\
  (truthy_opt (assoc "id" props) = true ->
   truthy_opt (assoc "name" props) = true ->
   rejects env (MongoInsertOne "students" (JObject (id_assigned props st))) = None ->
   fst (addStudent env (JObject props) st)
   = res_json 201 (JObject [("message", JString "Student added");
                            ("id", inserted_id props st)])
   /\ status (fst (addStudent env (JObject props) st)) = 201
   /\ collection (snd (addStudent env (JObject props) st)) "students"
      = collection st "students" ++ [stored (id_assigned props st)]).
Proof.
  split; [|split].
  - intros H. eapply addStudent_invalid; try reflexivity.
    destruct H as [-> | ->]; [reflexivity | apply andb_false_r].
  - reflexivity.
  - intros H1 H2 Hi. rewrite (addStudent_ok env st props H1 H2 Hi).
    split; [reflexivity|]. split; [reflexivity|].
    apply collection_after_insert.
Qed.

Lemma addStudent_validates_then_inserts_witness :
  status (fst (addStudent (Scenario.request_at None 5)
                 (JObject Scenario.student_S1) Scenario.one_student)) = 201
  /\ collection (snd (addStudent (Scenario.request_at None 5)
                        (JObject Scenario.student_S1) Scenario.one_student))
       "students"
     = [stored (Scenario.student_S1 ++ [("_id", ObjectId 0)]);
        stored (Scenario.student_S1 ++ [("_id", ObjectId 1)])].
Proof.
  destruct (proj2 (proj2 (addStudent_validates_then_inserts
                            (Scenario.request_at None 5) Scenario.one_student
                            Scenario.student_S1)))
    as (_ & H1 & H2); try reflexivity.
  split; [exact H1 | rewrite H2; reflexivity].
Defined.







(* ===================================================================== *)
(** ** The cache TTL                                                      *)
(* ===================================================================== *)

Lemma getResult_calls env s st :
  exists l, calls (snd (getResult env s st)) = calls st ++ l
            /\ Forall (written_with (CACHE_TTL (env_CACHE_TTL env))) l.
Proof.
  unfold getResult, try_catch, bind, redis_get, findOne, redis_setEx, driver,
    ret, throw.
  repeat case_match; simplify_eq; simpl;
    (eexists; split;
     [rewrite <- ?app_assoc; reflexivity | repeat constructor]).
Qed.

Lemma insertOne_calls t env name doc st :
  exists l, calls (snd (insertOne env name doc st)) = calls st ++ l
            /\ Forall (written_with t) l.
Proof.
  destruct doc as [| | | | | |props];
    try (exists []; split; [now rewrite app_nil_r | constructor]).
  unfold insertOne. destruct (assign_id props (next_oid st)) as [props' n'].
  unfold bind, driver, ret. simpl.
  destruct (rejects env _); simpl;
    (eexists; split; [reflexivity | repeat constructor]).
Qed.

Lemma addResult_calls env req_body st :
  exists l, calls (snd (addResult env req_body st)) = calls st ++ l
            /\ Forall (written_with (CACHE_TTL (env_CACHE_TTL env))) l.
Proof.
  assert (Hnil : exists l, calls st = calls st ++ l
                           /\ Forall (written_with (CACHE_TTL (env_CACHE_TTL env))) l).
  { exists []. split; [now rewrite app_nil_r | constructor]. }
  unfold addResult, try_catch, bind, eval.
  destruct (get_prop req_body "id") as [o1|]; [|exact Hnil].
  destruct (get_prop req_body "subjects") as [o2|]; [|exact Hnil].
  destruct (negb (truthy_opt o1) || negb (truthy_opt o2)); [exact Hnil|].
  destruct (insertOne_calls (CACHE_TTL (env_CACHE_TTL env)) env "results"
              req_body st) as (l & El & Hl).
  destruct (insertOne env "results" req_body st) as [[ins|message] st1];
    simpl in El; [|now exists l].
  destruct (get_prop (snd ins) "id") as [o3|]; [|now exists l].
  destruct (template_literal o3) as [shown|]; [|now exists l].
  unfold redis_setEx, driver, ret. simpl.
  destruct (rejects env _); simpl; rewrite El, <- app_assoc;
    (eexists; split; [reflexivity|]); apply Forall_app; split; auto;
    repeat constructor.
Qed.

(** C9, as stated, fails: with [CACHE_TTL=-5] in the environment the TTL is
    [-5], not a positive integer, and that is the expiry that a cold lookup
    passes to the cache write. *)
Lemma negative_ttl_is_used :
  CACHE_TTL (Some "-5") = Finite (-5)
  /\ ~ (exists n, CACHE_TTL (Some "-5") = Finite n /\ (0 < n)%Z)
  /\ calls (snd (getResult (Scenario.request_at (Some "-5") 0) "S1"
                   Scenario.stored_S1))
     = [RedisGet "result:S1"; MongoFindOne "results" "S1";
        RedisSetEx "result:S1" (Finite (-5))
          (JSON.stringify (stored (Scenario.result_S1 ++ [("_id", ObjectId 0)])))].
Proof.
  split; [reflexivity|]. split; [|vm_compute; reflexivity].
  intros (n & E & Hn). change (CACHE_TTL (Some "-5")) with (Finite (-5)) in E.
  injection E as <-. lia.
Qed.

(** C9, amended.  The effective cache TTL is never zero and never [NaN]:
    when the [CACHE_TTL] environment variable is unset, is not numeric, or
    parses to 0, it is 600 seconds; any other parsed value is used as it
    is, whatever its sign.  Every cache write that a lookup or an ingest
    makes carries that TTL. *)
Theorem cache_ttl_never_zero (env_var : option string) :
  number_truthy (CACHE_TTL env_var) = true
  /\ CACHE_TTL env_var <> Finite 0
  /\ CACHE_TTL env_var <> NaN
  /\ CACHE_TTL None = Finite 600
  /\ (parseInt env_var = NaN -> CACHE_TTL env_var = Finite 600)
  /\ (parseInt env_var = Finite 0 -> CACHE_TTL env_var = Finite 600)
  /\ (number_truthy (parseInt env_var) = true ->
      CACHE_TTL env_var = parseInt env_var)
  /\ (forall env st s,
         env_CACHE_TTL env = env_var ->
         exists l, calls (snd (getResult env s st)) = calls st ++ l
                   /\ Forall (written_with (CACHE_TTL env_var)) l)
  /\ (forall env st req_body,
         env_CACHE_TTL env = env_var ->
         exists l, calls (snd (addResult env req_body st)) = calls st ++ l
                   /\ Forall (written_with (CACHE_TTL env_var)) l).
Proof.
  assert (Ht : number_truthy (CACHE_TTL env_var) = true).
  { unfold CACHE_TTL. destruct (number_truthy (parseInt env_var)) eqn:E;
      [exact E | reflexivity]. }
  split; [exact Ht|]. split; [|split; [|split; [|split; [|split; [|split; [|split]]]]]].
  - intros E. rewrite E in Ht. discriminate.
  - intros E. rewrite E in Ht. discriminate.
  - reflexivity.
  - intros E. unfold CACHE_TTL. now rewrite E.
  - intros E. unfold CACHE_TTL. now rewrite E.
  - intros E. unfold CACHE_TTL. now rewrite E.
  - intros env st s <-. apply getResult_calls.
  - intros env st req_body <-. apply addResult_calls.
Qed.

Lemma cache_ttl_never_zero_witness :
  CACHE_TTL (Some "abc") = Finite 600
  /\ CACHE_TTL (Some "0") = Finite 600
  /\ CACHE_TTL (Some "900") = Finite 900.
Proof.
  split; [|split].
  - apply (proj1 (proj2 (proj2 (proj2 (proj2
             (cache_ttl_never_zero (Some "abc"))))))). reflexivity.
  - apply (proj1 (proj2 (proj2 (proj2 (proj2 (proj2
             (cache_ttl_never_zero (Some "0")))))))). reflexivity.
  - rewrite (proj1 (proj2 (proj2 (proj2 (proj2 (proj2 (proj2
               (cache_ttl_never_zero (Some "900")))))))));
      reflexivity.
Defined.

(* ===================================================================== *)
(** ** What one request can change                                        *)
(* ===================================================================== *)

Module Effects.
Import Js Server ServerFacts Trace.

Lemma getResult_effect env s st :
  db (snd (getResult env s st)) = db st
  /\ next_oid (snd (getResult env s st)) = next_oid st
  /\ (cache (snd (getResult env s st)) = cache st
      \/ exists doc,
           List.find (matches_id s) (collection st "results") = Some doc
           /\ cache (snd (getResult env s st))
              = <[result_key s :=
                    {| entry_value := JSON.stringify doc;
                       entry_written := now env;
                       entry_seconds := CACHE_TTL (env_CACHE_TTL env) |}]>
                  (cache st)).
Proof.
  unfold getResult, try_catch, bind, redis_get, findOne, redis_setEx, driver,
    ret, throw.
  destruct (rejects env (RedisGet _)); simpl; [auto|].
  destruct (cached_truthy _); [destruct (JSON.parse _); simpl; auto|].
  destruct (rejects env (MongoFindOne _ _)); simpl; [auto|].
  change (collection (journal _ (journal _ st)) "results")
    with (collection st "results").
  destruct (List.find _ _) as [doc|] eqn:Hd; simpl; [|auto].
  destruct (rejects env (RedisSetEx _ _ _)); simpl; [auto|].
  repeat split. right. now exists doc.
Qed.

Lemma insertOne_effect env name doc st :
  cache (snd (insertOne env name doc st)) = cache st
  /\ (db (snd (insertOne env name doc st)) = db st
      /\ (forall r, fst (insertOne env name doc st) <> Normal r)
      \/ exists props,
           doc = JObject props
           /\ fst (insertOne env name doc st)
              = Normal (inserted_id props st, JObject (id_assigned props st))
           /\ db (snd (insertOne env name doc st))
              = <[name := collection st name ++ [stored (id_assigned props st)]]>
                  (db st)).
Proof.
  split; [apply insertOne_cache|].
  destruct doc as [| | | | | |props]; try (left; split; [reflexivity|discriminate]).
  destruct (rejects env (MongoInsertOne name (JObject (id_assigned props st))))
    as [message|] eqn:Hr.
  - rewrite (insertOne_rejected _ _ _ _ _ Hr). left. split; [reflexivity|discriminate].
  - rewrite (insertOne_ok _ _ _ _ Hr). right. exists props.
    repeat split.
Qed.

Lemma addStudent_effect env req_body st :
  cache (snd (addStudent env req_body st)) = cache st
  /\ (db (snd (addStudent env req_body st)) = db st
      \/ exists props,
           req_body = JObject props
           /\ truthy_opt (assoc "id" props) = true
           /\ truthy_opt (assoc "name" props) = true
           /\ db (snd (addStudent env req_body st))
              = <["students" := collection st "students"
                                ++ [stored (id_assigned props st)]]> (db st)).
Proof.
  unfold addStudent, try_catch, bind, eval.
  destruct (get_prop req_body "id") as [o1|] eqn:H1; [|simpl; auto].
  destruct (get_prop req_body "name") as [o2|] eqn:H2; [|simpl; auto].
  destruct (truthy_opt o1) eqn:T1; [|simpl; auto].
  destruct (truthy_opt o2) eqn:T2; [|simpl; auto].
  change (negb true || negb true) with false. cbv iota beta.
  destruct (insertOne_effect env "students" req_body st) as (Hc & [[Hd Hn]|Hi]).
  - destruct (insertOne env "students" req_body st) as [[r|m] st1]; simpl in *; auto.
  - destruct Hi as (props & -> & Hf & Hd). simpl in H1, H2.
    injection H1 as <-. injection H2 as <-.
    destruct (insertOne env "students" (JObject props) st) as [[r|m] st1];
      simpl in *; [|discriminate].
    split; [assumption|]. right. now exists props.
Qed.

Lemma addResult_effect env req_body st :
  (db (snd (addResult env req_body st)) = db st
   /\ cache (snd (addResult env req_body st)) = cache st)
  \/ exists props,
       req_body = JObject props
       /\ truthy_opt (assoc "id" props) = true
       /\ truthy_opt (assoc "subjects" props) = true
       /\ db (snd (addResult env req_body st))
          = <["results" := collection st "results"
                           ++ [stored (id_assigned props st)]]> (db st)
       /\ (cache (snd (addResult env req_body st)) = cache st
           \/ cache (snd (addResult env req_body st))
              = <[result_key (template (assoc "id" props)) :=
                    {| entry_value := JSON.stringify (JObject (id_assigned props st));
                       entry_written := now env;
                       entry_seconds := CACHE_TTL (env_CACHE_TTL env) |}]>
                  (cache st)).
Proof.
  unfold addResult, try_catch, bind, eval.
  destruct (get_prop req_body "id") as [o1|] eqn:H1; [|simpl; auto].
  destruct (get_prop req_body "subjects") as [o2|] eqn:H2; [|simpl; auto].
  destruct (truthy_opt o1) eqn:T1; [|simpl; auto].
  destruct (truthy_opt o2) eqn:T2; [|simpl; auto].
  change (negb true || negb true) with false. cbv iota beta.
  destruct (insertOne_effect env "results" req_body st) as (Hc & [[Hd Hn]|Hi]).
  - destruct (insertOne env "results" req_body st) as [[r|m] st1]; simpl in *; auto.
    now destruct (Hn r).
  - destruct Hi as (props & -> & Hf & Hd). simpl in H1, H2.
    injection H1 as <-. injection H2 as <-.
    destruct (insertOne env "results" (JObject props) st) as [[r|m] st1];
      simpl in *; [|discriminate].
    injection Hf as ->. right. exists props.
    split; [reflexivity|]. split; [assumption|]. split; [assumption|].
    cbn [snd fst get_prop].
    rewrite (assoc_id_assigned "id" props st) by discriminate.
    destruct (template_literal_cases (assoc "id" props)) as [E|E]; rewrite E;
      [|simpl; auto].
    unfold redis_setEx, driver, ret.
    destruct (rejects env _); simpl; rewrite ?Hc; auto.
Qed.

End Effects.

(* ===================================================================== *)
(** ** Invariants of the store and of the cache                           *)
(* ===================================================================== *)

Module Invariants.
Import Js Server ServerFacts Trace Effects.

Lemma assoc_remove_other k k' props :
  k <> k' -> assoc k (remove_prop k' props) = assoc k props.
Proof.
  intros Hne. induction props as [|[k0 v0] props IH]; [reflexivity|].
  unfold remove_prop in *. simpl.
  destruct (String.eqb_spec k0 k') as [->|]; simpl.
  - destruct (String.eqb_spec k' k); [congruence|exact IH].
  - now rewrite IH.
Qed.

Lemma remove_prop_free k props :
  Forall (fun kv => fst kv <> k) (remove_prop k props).
Proof.
  induction props as [|[k0 v0] props IH]; [constructor|].
  unfold remove_prop in *. simpl.
  destruct (String.eqb_spec k0 k); simpl; [exact IH|].
  constructor; [assumption|exact IH].
Qed.

Lemma remove_prop_none k props :
  Forall (fun kv => fst kv <> k) props -> remove_prop k props = props.
Proof.
  induction 1 as [|[k0 v0] props Hk _ IH]; [reflexivity|].
  unfold remove_prop in *. simpl in *.
  destruct (String.eqb_spec k0 k); [contradiction|]. simpl. now rewrite IH.
Qed.

Lemma assoc_replace_same k v props :
  assoc k props <> None -> assoc k (replace_prop k v props) = Some v.
Proof.
  induction props as [|[k0 v0] props IH]; simpl; [congruence|].
  destruct (String.eqb_spec k0 k) as [->|Hne]; simpl.
  - now rewrite String.eqb_refl.
  - intros H. destruct (String.eqb_spec k0 k); [contradiction|]. now apply IH.
Qed.

(** After the driver's assignment an object has an [_id] that is not
    [null]. *)
Lemma id_assigned_has_id props st :
  exists v, assoc "_id" (id_assigned props st) = Some v /\ v <> JNull.
Proof.
  unfold id_assigned, assign_id.
  destruct (assoc "_id" props) as [v|] eqn:E.
  - destruct v; simpl;
      try (eexists; split; [exact E|discriminate]).
    exists (ObjectId (next_oid st)). split; [|discriminate].
    apply assoc_replace_same. now rewrite E.
  - simpl. exists (ObjectId (next_oid st)). split; [|discriminate].
    now apply assoc_app_new.
Qed.

Lemma stored_shape_stored required props st :
  required <> "_id" ->
  truthy_opt (assoc "id" props) = true ->
  truthy_opt (assoc required props) = true ->
  stored_shape required (stored (id_assigned props st)).
Proof.
  intros Hr H1 H2. destruct (id_assigned_has_id props st) as (v & Ev & Hv).
  exists v, (remove_prop "_id" (id_assigned props st)).
  unfold stored. rewrite Ev. simpl. repeat split.
  - exact Hv.
  - apply remove_prop_free.
  - rewrite assoc_remove_other, assoc_id_assigned by discriminate. exact H1.
  - rewrite assoc_remove_other, assoc_id_assigned by assumption. exact H2.
Qed.

(** A document of that shape is what [stored] makes of its own fields. *)
Lemma stored_shape_fixed required doc :
  stored_shape required doc ->
  exists props, doc = JObject props /\ stored props = doc.
Proof.
  intros (v & rest & -> & _ & Hfree & _). exists (("_id", v) :: rest).
  split; [reflexivity|]. unfold stored. simpl.
  unfold remove_prop. simpl. fold (remove_prop "_id" rest).
  now rewrite (remove_prop_none _ _ Hfree).
Qed.

Lemma collection_db_insert st st' name docs :
  db st' = <[name := docs]> (db st) ->
  collection st' name = docs
  /\ forall other, other <> name -> collection st' other = collection st other.
Proof.
  intros E. unfold collection. rewrite E. split.
  - now rewrite lookup_insert_eq.
  - intros other Hne. now rewrite lookup_insert_ne.
Qed.

Lemma collection_db_same st st' name :
  db st' = db st -> collection st' name = collection st name.
Proof. intros E. unfold collection. now rewrite E. Qed.

(** One request appends at most one document to a collection and changes
    none of those already there. *)
Lemma serve_appends env r st name :
  exists added, collection (snd (serve env r st)) name = collection st name ++ added
                /\ length added <= 1.
Proof.
  assert (Hsame : forall st', db st' = db st ->
            exists added, collection st' name = collection st name ++ added
                          /\ length added <= 1).
  { intros st' E. exists []. rewrite app_nil_r.
    split; [now apply collection_db_same | simpl; lia]. }
  assert (Hins : forall st' target doc,
            db st' = <[target := collection st target ++ [doc]]> (db st) ->
            exists added, collection st' name = collection st name ++ added
                          /\ length added <= 1).
  { intros st' target doc E.
    destruct (collection_db_insert _ _ _ _ E) as [E1 E2].
    destruct (String.eqb_spec name target) as [->|Hne].
    - exists [doc]. split; [exact E1 | simpl; lia].
    - exists []. rewrite app_nil_r. split; [now apply E2 | simpl; lia]. }
  destruct r as [s|req_body|req_body]; cbn [serve].
  - apply Hsame. apply getResult_effect.
  - destruct (addResult_effect env req_body st) as [[E _]|(props & _ & _ & _ & E & _)];
      [now apply Hsame | now apply Hins in E].
  - destruct (addStudent_effect env req_body st) as (_ & [E|(props & _ & _ & _ & E)]);
      [now apply Hsame | now apply Hins in E].
Qed.

Lemma serve_keeps_validated env r st :
  store_validated st -> store_validated (snd (serve env r st)).
Proof.
  intros [Hr Hs].
  assert (Hsame : forall st', db st' = db st -> store_validated st').
  { intros st' E. split.
    - now rewrite (collection_db_same st st' "results" E).
    - now rewrite (collection_db_same st st' "students" E). }
  destruct r as [s|req_body|req_body]; cbn [serve].
  - apply Hsame. apply getResult_effect.
  - destruct (addResult_effect env req_body st)
      as [[E _]|(props & _ & H1 & H2 & E & _)]; [now apply Hsame|].
    destruct (collection_db_insert _ _ _ _ E) as [E1 E2]. split.
    + rewrite E1. apply Forall_app. split; [exact Hr|].
      constructor; [|constructor]. now apply stored_shape_stored.
    + rewrite E2 by discriminate. exact Hs.
  - destruct (addStudent_effect env req_body st)
      as (_ & [E|(props & _ & H1 & H2 & E)]); [now apply Hsame|].
    destruct (collection_db_insert _ _ _ _ E) as [E1 E2]. split.
    + rewrite E2 by discriminate. exact Hr.
    + rewrite E1. apply Forall_app. split; [exact Hs|].
      constructor; [|constructor]. now apply stored_shape_stored.
Qed.

Lemma serve_keeps_backed env r st :
  store_validated st -> cache_backed st -> cache_backed (snd (serve env r st)).
Proof.
  intros Hv Hb.
  assert (Hold : forall st',
            cache st' = cache st ->
            (forall doc, In doc (collection st "results") ->
                         In doc (collection st' "results")) ->
            cache_backed st').
  { intros st' Ec Hin key e Hk. rewrite Ec in Hk.
    destruct (Hb key e Hk) as (s & props & Ek & Ev & Hs & Hm).
    exists s, props. repeat split; auto. }
  assert (Hnew : forall st' s props written seconds,
            cache st' = <[result_key s :=
                            {| entry_value := JSON.stringify (JObject props);
                               entry_written := written;
                               entry_seconds := seconds |}]> (cache st) ->
            (forall doc, In doc (collection st "results") ->
                         In doc (collection st' "results")) ->
            In (stored props) (collection st' "results") ->
            matches_id s (JObject props) = true
            \/ template (assoc "id" props) = s ->
            cache_backed st').
  { intros st' s props written seconds Ec Hin Hp Hm key e Hk.
    rewrite Ec, lookup_insert in Hk. case_decide.
    - injection Hk as <-. subst key. exists s, props. repeat split; auto.
    - destruct (Hb key e Hk) as (s0 & props0 & Ek & Ev & Hs & Hm0).
      exists s0, props0. repeat split; auto. }
  destruct r as [s|req_body|req_body]; cbn [serve].
  - destruct (getResult_effect env s st) as (Ed & _ & [Ec|(doc & Hf & Ec)]).
    + apply Hold; [exact Ec|]. intros doc. now rewrite (collection_db_same _ _ _ Ed).
    + destruct (List.find_some _ _ Hf) as [Hin Hm].
      destruct Hv as [Hr _]. rewrite Forall_forall in Hr.
      destruct (stored_shape_fixed _ _ (Hr doc (proj2 (list_elem_of_In _ _) Hin)))
        as (props & -> & Hst).
      eapply Hnew; [exact Ec| | |left; exact Hm].
      * intros d. now rewrite (collection_db_same _ _ _ Ed).
      * rewrite (collection_db_same _ _ _ Ed), Hst. exact Hin.
  - destruct (addResult_effect env req_body st)
      as [[Ed Ec]|(props & -> & H1 & H2 & Ed & Hc)].
    + apply Hold; [exact Ec|]. intros doc. now rewrite (collection_db_same _ _ _ Ed).
    + destruct (collection_db_insert _ _ _ _ Ed) as [E1 _].
      assert (Hin : forall doc, In doc (collection st "results") ->
                                In doc (collection (snd (addResult env (JObject props) st))
                                          "results")).
      { intros doc Hd. rewrite E1. apply in_or_app. now left. }
      destruct Hc as [Ec|Ec]; [now apply Hold|].
      eapply Hnew; [exact Ec|exact Hin| |right].
      * rewrite E1. apply in_or_app. right. now left.
      * now rewrite (assoc_id_assigned "id" props st) by discriminate.
  - destruct (addStudent_effect env req_body st) as (Ec & [Ed|(props & _ & _ & _ & Ed)]).
    + apply Hold; [exact Ec|]. intros doc. now rewrite (collection_db_same _ _ _ Ed).
    + destruct (collection_db_insert _ _ _ _ Ed) as [_ E2].
      apply Hold; [exact Ec|]. intros doc. now rewrite E2 by discriminate.
Qed.

End Invariants.

(* ===================================================================== *)
(** ** Further properties of the lookup                                   *)
(* ===================================================================== *)

Import Trace Effects Invariants.

(** X1.  Once the expiry of a cache entry has elapsed the entry is no
    longer served: the lookup queries the store, answers 404 when the store
    has no matching document, and otherwise answers with the stored
    document and caches it again, with an expiry counted from now. *)
Theorem expired_entry_falls_back_to_store
    (env : Env) (st : State) (s : string) (e : CacheEntry) (n : Z) :
  let key := "result:" +:+ s in
  let ttl := CACHE_TTL (env_CACHE_TTL env) in
  cache st !! key = Some e ->
  entry_seconds e = Finite n ->
  (entry_written e + n <= now env)%Z ->
  rejects env (RedisGet key) = None ->
  rejects env (MongoFindOne "results" s) = None ->
  (List.find (matches_id s) (collection st "results") = None ->
   getResult env s st
   = (res_json 404 (JObject [("error", JString "Result not found")]),
      journal (MongoFindOne "results" s) (journal (RedisGet key) st)))
  /\
  (forall doc,
      List.find (matches_id s) (collection st "results") = Some doc ->
      rejects env (RedisSetEx key ttl (JSON.stringify doc)) = None ->
      getResult env s st
      = (res_json 200 doc,
         set_cache (<[key := {| entry_value := JSON.stringify doc;
                                entry_written := now env;
                                entry_seconds := ttl |}]> (cache st))
           (journal (RedisSetEx key ttl (JSON.stringify doc))
              (journal (MongoFindOne "results" s)
                 (journal (RedisGet key) st))))).
Proof.
  intros key ttl He Hn Hexp Hg Hf.
  assert (Hmiss : cached_truthy (cache_read (now env) (cache st) (result_key s))
                  = false).
  { unfold cache_read, result_key. fold key. rewrite He. unfold live. rewrite Hn.
    destruct (Z.ltb_spec (now env) (entry_written e + n)); [lia|reflexivity]. }
  split.
  - intros Hnone. now apply getResult_not_found.
  - intros doc Hd Hs. now apply getResult_found.
Qed.

Lemma expired_entry_falls_back_to_store_witness :
  fst (getResult (Scenario.request_at None 600) "S1" Scenario.ingested_S1)
  = res_json 200 (stored (Scenario.result_S1 ++ [("_id", ObjectId 0)])).
Proof.
  rewrite (proj2 (expired_entry_falls_back_to_store
                    (Scenario.request_at None 600) Scenario.ingested_S1 "S1"
                    {| entry_value := JSON.stringify Scenario.document_S1;
                       entry_written := 0;
                       entry_seconds := Finite 600 |} 600
                    ltac:(vm_compute; reflexivity) eq_refl
                    ltac:(vm_compute; discriminate) eq_refl eq_refl)
             (stored (Scenario.result_S1 ++ [("_id", ObjectId 0)])));
    vm_compute; reflexivity.
Defined.

(** X2.  An entry whose string is empty counts as a miss ([if (cached)]):
    the store is queried, and the response is the one the lookup gives when
    the key is not in the cache at all. *)
Theorem empty_entry_is_a_miss (env : Env) (st : State) (s : string) :
  let key := "result:" +:+ s in
  rejects env (RedisGet key) = None ->
  cache_read (now env) (cache st) key = Some EmptyString ->
  fst (getResult env s st)
  = fst (getResult env s (set_cache (delete key (cache st)) st))
  /\ In (MongoFindOne "results" s) (calls (snd (getResult env s st))).
Proof.
  intros key Hg Hc.
  assert (Hm1 : cached_truthy (cache_read (now env) (cache st) (result_key s))
                = false).
  { unfold result_key. fold key. now rewrite Hc. }
  assert (Hm2 : cached_truthy
                  (cache_read (now env)
                     (cache (set_cache (delete key (cache st)) st)) (result_key s))
                = false).
  { unfold cache_read, result_key. fold key. simpl. now rewrite lookup_delete_eq. }
  set (st0 := set_cache (delete key (cache st)) st).
  assert (Hcol : collection st0 "results" = collection st "results") by reflexivity.
  destruct (rejects env (MongoFindOne "results" s)) as [m|] eqn:Hf.
  - rewrite (getResult_find_rejected env st s m Hg Hm1 Hf),
      (getResult_find_rejected env st0 s m Hg Hm2 Hf).
    split; [reflexivity|]. simpl. apply in_or_app. right. now left.
  - destruct (List.find (matches_id s) (collection st "results")) as [doc|] eqn:Hd.
    + destruct (rejects env (RedisSetEx (result_key s)
                               (CACHE_TTL (env_CACHE_TTL env)) (JSON.stringify doc)))
        as [m|] eqn:Hs.
      * rewrite (getResult_set_rejected env st s doc m Hg Hm1 Hf Hd Hs),
          (getResult_set_rejected env st0 s doc m Hg Hm2 Hf Hd Hs).
        split; [reflexivity|]. simpl. apply in_or_app. left.
        apply in_or_app. right. now left.
      * rewrite (getResult_found env st s doc Hg Hm1 Hf Hd Hs),
          (getResult_found env st0 s doc Hg Hm2 Hf Hd Hs).
        split; [reflexivity|]. simpl. apply in_or_app. left.
        apply in_or_app. right. now left.
    + rewrite (getResult_not_found env st s Hg Hm1 Hf Hd),
        (getResult_not_found env st0 s Hg Hm2 Hf Hd).
      split; [reflexivity|]. simpl. apply in_or_app. right. now left.
Qed.

Lemma empty_entry_is_a_miss_witness :
  fst (getResult (Scenario.request_at None 5) "S1" Scenario.empty_entry_S1)
  = res_json 200 (stored (Scenario.result_S1 ++ [("_id", ObjectId 0)])).
Proof.
  rewrite (proj1 (empty_entry_is_a_miss (Scenario.request_at None 5)
                    Scenario.empty_entry_S1 "S1" eq_refl
                    ltac:(vm_compute; reflexivity))).
  vm_compute. reflexivity.
Defined.

(** X3.  The lookup writes nothing to the store and touches no cache key
    but its own: after it, the database and the ObjectId counter are what
    they were, and every key other than [result:<s>] holds what it held. *)
Theorem lookup_changes_only_its_key (env : Env) (st : State) (s : string) :
  db (snd (getResult env s st)) = db st
  /\ next_oid (snd (getResult env s st)) = next_oid st
  /\ forall key, key <> "result:" +:+ s ->
                 cache (snd (getResult env s st)) !! key = cache st !! key.
Proof.
  destruct (getResult_effect env s st) as (Ed & En & [Ec|(doc & _ & Ec)]).
  - repeat split; auto. intros key _. now rewrite Ec.
  - repeat split; auto. intros key Hk. rewrite Ec.
    now rewrite lookup_insert_ne by (unfold result_key; congruence).
Qed.

(** X4.  In a state where the store holds validated documents and the
    cache holds serializations of stored documents, as in every state the
    server reaches, a lookup that answers 200 answers with a document that
    the store holds: the body is the serialization of an object whose
    stored form is in the [results] collection. *)
Theorem lookup_answers_only_stored_documents
    (env : Env) (st : State) (s : string) :
  store_validated st ->
  cache_backed st ->
  status (fst (getResult env s st)) = 200 ->
  exists props,
    body (fst (getResult env s st)) = JSON.stringify (JObject props)
    /\ In (stored props) (collection st "results").
Proof.
  intros [Hr _] Hb.
  unfold getResult, try_catch, bind, redis_get, findOne, redis_setEx, driver,
    ret, throw.
  destruct (rejects env (RedisGet _)); simpl; [discriminate|].
  destruct (cache_read (now env) (cache st) (result_key s)) as [text|] eqn:Hc; simpl.
  - destruct (String.eqb_spec text EmptyString) as [->|Hne]; simpl.
    + (* an empty entry cannot be in such a cache *)
      unfold cache_read in Hc.
      destruct (cache st !! result_key s) as [e|] eqn:He; [|discriminate].
      destruct (live (now env) e); [|discriminate]. injection Hc as Hv.
      destruct (Hb _ _ He) as (s0 & props & _ & Ev & _).
      rewrite Hv in Ev. symmetry in Ev.
      now apply JSONFacts.stringify_nonempty in Ev.
    + unfold cache_read in Hc.
      destruct (cache st !! result_key s) as [e|] eqn:He; [|discriminate].
      destruct (live (now env) e); [|discriminate]. injection Hc as Hv.
      destruct (Hb _ _ He) as (s0 & props & _ & Ev & Hin & _).
      rewrite <- Hv, Ev, JSONFacts.parse_stringify. simpl. intros _.
      exists props. split; [|exact Hin].
      apply (JSONFacts.stringify_jsonify (JObject props)).
  - destruct (rejects env (MongoFindOne _ _)); simpl; [discriminate|].
    change (collection (journal _ (journal _ st)) "results")
      with (collection st "results").
    destruct (List.find _ _) as [doc|] eqn:Hd; simpl; [|discriminate].
    destruct (rejects env (RedisSetEx _ _ _)); simpl; [discriminate|]. intros _.
    destruct (List.find_some _ _ Hd) as [Hin _].
    rewrite Forall_forall in Hr.
    destruct (stored_shape_fixed _ _ (Hr doc (proj2 (list_elem_of_In _ _) Hin)))
      as (props & -> & Hst).
    exists props. split; [reflexivity|]. now rewrite Hst.
Qed.

Lemma lookup_answers_only_stored_documents_witness :
  exists props,
    body (fst (getResult (Scenario.request_at None 5) "S1" Scenario.stored_S1))
    = JSON.stringify (JObject props)
    /\ In (stored props) (collection Scenario.stored_S1 "results").
Proof.
  apply (lookup_answers_only_stored_documents (Scenario.request_at None 5)
           Scenario.stored_S1 "S1").
  - split; [|constructor]. constructor; [|constructor].
    exists (ObjectId 0), Scenario.result_S1.
    split; [reflexivity|]. split; [discriminate|].
    split; [|split; reflexivity].
    repeat constructor; discriminate.
  - intros key e H. discriminate H.
  - reflexivity.
Defined.

(* ===================================================================== *)
(** ** Further properties of the write endpoints                          *)
(* ===================================================================== *)

Lemma addStudent_insert_rejected env st props message :
  truthy_opt (assoc "id" props) = true ->
  truthy_opt (assoc "name" props) = true ->
  rejects env (MongoInsertOne "students" (JObject (id_assigned props st)))
  = Some message ->
  addStudent env (JObject props) st
  = (res_json 500 (error_body "Failed to add student"),
     journal (MongoInsertOne "students" (JObject (id_assigned props st)))
       (set_next_oid (snd (assign_id props (next_oid st))) st)).
Proof.
  intros H1 H2 Hi. unfold addStudent, try_catch, bind, eval. simpl get_prop.
  cbv iota beta. rewrite H1, H2.
  change (negb true || negb true) with false. cbv iota beta.
  now rewrite (insertOne_rejected _ _ _ _ _ Hi).
Qed.

Lemma find_app_first {A} (f : A -> bool) (l1 l2 : list A) :
  Forall (fun x => f x = false) l1 -> List.find f (l1 ++ l2) = List.find f l2.
Proof. induction 1 as [|x l Hx _ IH]; simpl; [reflexivity|]. now rewrite Hx. Qed.

Lemma matches_id_stored s props st :
  assoc "id" props = Some (JString s) ->
  matches_id s (stored (id_assigned props st)) = true.
Proof.
  intros H. unfold stored, matches_id.
  change (assoc "id" (("_id", ?v) :: ?rest)) with (assoc "id" rest).
  rewrite assoc_remove_other, assoc_id_assigned, H by discriminate.
  apply String.eqb_refl.
Qed.

Lemma truthy_string_nonempty s : truthy (JString s) = true -> s <> EmptyString.
Proof. simpl. intros H ->. discriminate H. Qed.

(** X5.  When the store refuses the insert of a valid result, the ingest
    answers 500 with the generic body [{error: "Failed to add result"}],
    whatever the message of the error; nothing is stored, the cache is what
    it was, and the cache write is not attempted: the insert is the only
    driver call made. *)
Theorem ingest_store_failure_writes_nothing
    (env : Env) (st : State) (props : list (string * JsValue)) (message : string) :
  truthy_opt (assoc "id" props) = true ->
  truthy_opt (assoc "subjects" props) = true ->
  rejects env (MongoInsertOne "results" (JObject (id_assigned props st)))
  = Some message ->
  fst (addResult env (JObject props) st)
  = res_json 500 (JObject [("error", JString "Failed to add result")])
  /\ db (snd (addResult env (JObject props) st)) = db st
  /\ cache (snd (addResult env (JObject props) st)) = cache st
  /\ calls (snd (addResult env (JObject props) st))
     = calls st ++ [MongoInsertOne "results" (JObject (id_assigned props st))].
Proof.
  intros H1 H2 Hi. rewrite (addResult_insert_rejected env st props message H1 H2 Hi).
  repeat split.
Qed.

Lemma ingest_store_failure_writes_nothing_witness :
  fst (addResult (Scenario.store_down_at None 0) (JObject Scenario.result_S1)
         Scenario.empty_state)
  = res_json 500 (JObject [("error", JString "Failed to add result")])
  /\ db (snd (addResult (Scenario.store_down_at None 0)
                (JObject Scenario.result_S1) Scenario.empty_state)) = ∅.
Proof.
  destruct (ingest_store_failure_writes_nothing (Scenario.store_down_at None 0)
              Scenario.empty_state Scenario.result_S1 "connect ECONNREFUSED"
              eq_refl eq_refl eq_refl) as (H1 & H2 & _).
  split; [exact H1 | exact H2].
Defined.

(** X6.  When the cache refuses the write that follows an accepted insert,
    the ingest answers 500 although the document is stored: there is no
    rollback.  The document is not lost to readers: a later lookup of its
    [id] that finds no live entry for the key, in a store that held no
    other match, answers 200 with the stored document and caches it. *)
Theorem ingest_cache_failure_keeps_document
    (env env' : Env) (st : State) (props : list (string * JsValue))
    (s message : string) :
  let doc := JObject (id_assigned props st) in
  let key := "result:" +:+ s in
  let ttl := CACHE_TTL (env_CACHE_TTL env) in
  let ttl' := CACHE_TTL (env_CACHE_TTL env') in
  assoc "id" props = Some (JString s) ->
  s <> EmptyString ->
  truthy_opt (assoc "subjects" props) = true ->
  rejects env (MongoInsertOne "results" doc) = None ->
  rejects env (RedisSetEx key ttl (JSON.stringify doc)) = Some message ->
  Forall (fun d => matches_id s d = false) (collection st "results") ->
  cached_truthy (cache_read (now env') (cache st) key) = false ->
  rejects env' (RedisGet key) = None ->
  rejects env' (MongoFindOne "results" s) = None ->
  rejects env' (RedisSetEx key ttl' (JSON.stringify (stored (id_assigned props st))))
  = None ->
  fst (addResult env (JObject props) st)
  = res_json 500 (JObject [("error", JString "Failed to add result")])
  /\ collection (snd (addResult env (JObject props) st)) "results"
     = collection st "results" ++ [stored (id_assigned props st)]
  /\ cache (snd (addResult env (JObject props) st)) = cache st
  /\ fst (getResult env' s (snd (addResult env (JObject props) st)))
     = res_json 200 (stored (id_assigned props st))
  /\ cache (snd (getResult env' s (snd (addResult env (JObject props) st)))) !! key
     = Some {| entry_value := JSON.stringify (stored (id_assigned props st));
               entry_written := now env';
               entry_seconds := ttl' |}.
Proof.
  intros doc key ttl ttl' Hid Hne Hsub Hi Hs Hold Hmiss Hg Hf Hs'.
  assert (H1 : truthy_opt (assoc "id" props) = true).
  { rewrite Hid. simpl. now destruct (String.eqb_spec s EmptyString). }
  assert (Hc : template_literal (assoc "id" props)
               = Normal (template (assoc "id" props))) by now rewrite Hid.
  assert (E := addResult_set_rejected env st props message H1 Hsub Hc Hi).
  rewrite Hid in E. simpl template in E. specialize (E Hs). rewrite E.
  cbn [fst snd].
  match goal with |- context [collection ?x "results"] => set (st1 := x) end.
  assert (Ecol : collection st1 "results"
                 = collection st "results" ++ [stored (id_assigned props st)]).
  { subst st1. apply collection_after_insert. }
  assert (Ecache : cache st1 = cache st) by reflexivity.
  assert (Hfind : List.find (matches_id s) (collection st1 "results")
                  = Some (stored (id_assigned props st))).
  { rewrite Ecol, (find_app_first _ _ _ Hold). cbn [List.find].
    now rewrite (matches_id_stored s props st Hid). }
  assert (Hmiss1 : cached_truthy (cache_read (now env') (cache st1) (result_key s))
                   = false) by (rewrite Ecache; exact Hmiss).
  rewrite (getResult_found env' st1 s _ Hg Hmiss1 Hf Hfind Hs').
  repeat split; auto. simpl. apply lookup_insert_eq.
Qed.

Lemma ingest_cache_failure_keeps_document_witness :
  fst (addResult (Scenario.cache_down_at None 0) (JObject Scenario.result_S1)
         Scenario.empty_state)
  = res_json 500 (JObject [("error", JString "Failed to add result")])
  /\ fst (getResult (Scenario.request_at None 1) "S1"
            (snd (addResult (Scenario.cache_down_at None 0)
                    (JObject Scenario.result_S1) Scenario.empty_state)))
     = res_json 200 (stored (Scenario.result_S1 ++ [("_id", ObjectId 0)])).
Proof.
  destruct (ingest_cache_failure_keeps_document
              (Scenario.cache_down_at None 0) (Scenario.request_at None 1)
              Scenario.empty_state Scenario.result_S1 "S1" "The client is closed")
    as (H1 & _ & _ & H2 & _); try reflexivity; try discriminate.
  - constructor.
  - split; [exact H1 | exact H2].
Defined.

(** X7.  When the store refuses the insert of a valid student,
    [POST /addStudent] answers 500 with the generic body
    [{error: "Failed to add student"}], whatever the message of the error,
    and neither the store nor the cache changes. *)
Theorem addStudent_store_failure_writes_nothing
    (env : Env) (st : State) (props : list (string * JsValue)) (message : string) :
  truthy_opt (assoc "id" props) = true ->
  truthy_opt (assoc "name" props) = true ->
  rejects env (MongoInsertOne "students" (JObject (id_assigned props st)))
  = Some message ->
  fst (addStudent env (JObject props) st)
  = res_json 500 (JObject [("error", JString "Failed to add student")])
  /\ db (snd (addStudent env (JObject props) st)) = db st
  /\ cache (snd (addStudent env (JObject props) st)) = cache st.
Proof.
  intros H1 H2 Hi.
  rewrite (addStudent_insert_rejected env st props message H1 H2 Hi).
  repeat split.
Qed.

Lemma addStudent_store_failure_writes_nothing_witness :
  fst (addStudent (Scenario.store_down_at None 0) (JObject Scenario.student_S1)
         Scenario.empty_state)
  = res_json 500 (JObject [("error", JString "Failed to add student")]).
Proof.
  apply (addStudent_store_failure_writes_nothing
           (Scenario.store_down_at None 0) Scenario.empty_state
           Scenario.student_S1 "connect ECONNREFUSED" eq_refl eq_refl eq_refl).
Defined.

Lemma addResult_ok_state env st props s n :
  assoc "id" props = Some (JString s) ->
  s <> EmptyString ->
  truthy_opt (assoc "subjects" props) = true ->
  CACHE_TTL (env_CACHE_TTL env) = Finite n ->
  rejects env (MongoInsertOne "results" (JObject (id_assigned props st))) = None ->
  rejects env (RedisSetEx (result_key s) (Finite n)
                 (JSON.stringify (JObject (id_assigned props st)))) = None ->
  collection (snd (addResult env (JObject props) st)) "results"
  = collection st "results" ++ [stored (id_assigned props st)]
  /\ cache (snd (addResult env (JObject props) st))
     = <[result_key s :=
           {| entry_value := JSON.stringify (JObject (id_assigned props st));
              entry_written := now env;
              entry_seconds := Finite n |}]> (cache st).
Proof.
  intros Hid Hne Hsub Httl Hi Hs.
  assert (H1 : truthy_opt (assoc "id" props) = true).
  { rewrite Hid. simpl. now destruct (String.eqb_spec s EmptyString). }
  assert (Hc : template_literal (assoc "id" props)
               = Normal (template (assoc "id" props))) by now rewrite Hid.
  assert (E := addResult_ok env st props H1 Hsub Hc Hi).
  rewrite Hid, Httl in E. simpl template in E. rewrite (E Hs). cbn [snd].
  split; [|reflexivity].
  change (collection (set_cache _ (journal _ ?x)) "results")
    with (collection x "results").
  apply collection_after_insert.
Qed.

(** X8.  Ingesting a second result under an [id] already ingested is
    accepted, and from then on the cache and the store disagree: while the
    entry written by the second ingest is live, lookup answers with the
    second object; once it has expired, lookup answers with the first, the
    oldest stored document of that [id], which is what [findOne] returns. *)
Theorem duplicate_id_cache_latest_store_oldest
    (env1 env2 env3 env4 : Env) (st : State)
    (props1 props2 : list (string * JsValue)) (s : string) (n1 n2 : Z) :
  let key := "result:" +:+ s in
  let doc1 := JObject (id_assigned props1 st) in
  let st1 := snd (addResult env1 (JObject props1) st) in
  let doc2 := JObject (id_assigned props2 st1) in
  let st2 := snd (addResult env2 (JObject props2) st1) in
  s <> EmptyString ->
  assoc "id" props1 = Some (JString s) ->
  assoc "id" props2 = Some (JString s) ->
  truthy_opt (assoc "subjects" props1) = true ->
  truthy_opt (assoc "subjects" props2) = true ->
  Forall (fun d => matches_id s d = false) (collection st "results") ->
  CACHE_TTL (env_CACHE_TTL env1) = Finite n1 ->
  rejects env1 (MongoInsertOne "results" doc1) = None ->
  rejects env1 (RedisSetEx key (Finite n1) (JSON.stringify doc1)) = None ->
  CACHE_TTL (env_CACHE_TTL env2) = Finite n2 ->
  rejects env2 (MongoInsertOne "results" doc2) = None ->
  rejects env2 (RedisSetEx key (Finite n2) (JSON.stringify doc2)) = None ->
  (now env2 <= now env3 < now env2 + n2)%Z ->
  rejects env3 (RedisGet key) = None ->
  (now env2 + n2 <= now env4)%Z ->
  rejects env4 (RedisGet key) = None ->
  rejects env4 (MongoFindOne "results" s) = None ->
  rejects env4 (RedisSetEx key (CACHE_TTL (env_CACHE_TTL env4))
                  (JSON.stringify (stored (id_assigned props1 st)))) = None ->
  collection st2 "results"
  = collection st "results"
    ++ [stored (id_assigned props1 st); stored (id_assigned props2 st1)]
  /\ fst (getResult env3 s st2) = res_json 200 doc2
  /\ fst (getResult env4 s st2) = res_json 200 (stored (id_assigned props1 st)).
Proof.
  intros key doc1 st1 doc2 st2 Hne Hid1 Hid2 Hs1 Hs2 Hold
    Ht1 Hi1 Hw1 Ht2 Hi2 Hw2 Hwin Hg3 Hexp Hg4 Hf4 Hw4.
  destruct (addResult_ok_state env1 st props1 s n1 Hid1 Hne Hs1 Ht1 Hi1 Hw1)
    as [Ec1 _].
  destruct (addResult_ok_state env2 st1 props2 s n2 Hid2 Hne Hs2 Ht2 Hi2 Hw2)
    as [Ec2 Ek2].
  fold st1 in Ec1. fold st2 in Ec2, Ek2.
  assert (Ecol : collection st2 "results"
                 = collection st "results"
                   ++ [stored (id_assigned props1 st);
                       stored (id_assigned props2 st1)]).
  { rewrite Ec2, Ec1, <- app_assoc. reflexivity. }
  assert (Hentry : cache st2 !! result_key s
                   = Some {| entry_value := JSON.stringify doc2;
                             entry_written := now env2;
                             entry_seconds := Finite n2 |}).
  { rewrite Ek2. apply lookup_insert_eq. }
  split; [exact Ecol|]. split.
  - assert (Hread : cache_read (now env3) (cache st2) (result_key s)
                    = Some (JSON.stringify doc2)).
    { unfold cache_read. rewrite Hentry. unfold live. simpl.
      destruct (Z.ltb_spec (now env3) (now env2 + n2)); [reflexivity|lia]. }
    rewrite (getResult_hit env3 st2 s _ _ Hg3 Hread
               (JSONFacts.parse_stringify doc2)).
    cbn [fst]. unfold res_json. now rewrite JSONFacts.stringify_jsonify.
  - assert (Hmiss : cached_truthy (cache_read (now env4) (cache st2) (result_key s))
                    = false).
    { unfold cache_read. rewrite Hentry. unfold live. simpl.
      destruct (Z.ltb_spec (now env4) (now env2 + n2)); [lia|reflexivity]. }
    assert (Hfind : List.find (matches_id s) (collection st2 "results")
                    = Some (stored (id_assigned props1 st))).
    { rewrite Ecol, (find_app_first _ _ _ Hold). cbn [List.find].
      now rewrite (matches_id_stored s props1 st Hid1). }
    now rewrite (getResult_found env4 st2 s _ Hg4 Hmiss Hf4 Hfind Hw4).
Qed.

Lemma duplicate_id_cache_latest_store_oldest_witness :
  fst (getResult (Scenario.request_at None 20) "S1"
         (snd (addResult (Scenario.request_at None 10)
                 (JObject Scenario.result_S1_again) Scenario.ingested_S1)))
  = res_json 200 (JObject (Scenario.result_S1_again ++ [("_id", ObjectId 1)]))
  /\ fst (getResult (Scenario.request_at None 700) "S1"
            (snd (addResult (Scenario.request_at None 10)
                    (JObject Scenario.result_S1_again) Scenario.ingested_S1)))
     = res_json 200 (stored (Scenario.result_S1 ++ [("_id", ObjectId 0)])).
Proof.
  destruct (duplicate_id_cache_latest_store_oldest
              (Scenario.request_at None 0) (Scenario.request_at None 10)
              (Scenario.request_at None 20) (Scenario.request_at None 700)
              Scenario.empty_state Scenario.result_S1 Scenario.result_S1_again
              "S1" 600 600)
    as (_ & H1 & H2); try reflexivity; try discriminate;
    try (simpl; lia).
  - constructor.
  - split; [exact H1 | exact H2].
Defined.

(** X9.  A result whose [id] is a number (a non-zero integer that a double
    holds exactly) is accepted and cached under the decimal form of the
    number, but no lookup can find it in the store,
    because the filter compares with the string of the path: while the
    entry is live, lookup of that decimal form answers 200; once it has
    expired, lookup answers 404 although the document is stored. *)
Theorem numeric_id_served_from_cache_only
    (env env1 env2 : Env) (st : State) (props : list (string * JsValue))
    (n ttl : Z) :
  let s := decimal n in
  let key := "result:" +:+ s in
  let doc := JObject (id_assigned props st) in
  let st1 := snd (addResult env (JObject props) st) in
  assoc "id" props = Some (JNumber n) ->
  n <> 0%Z ->
  (Z.abs n < 2 ^ 53)%Z ->
  truthy_opt (assoc "subjects" props) = true ->
  Forall (fun d => matches_id s d = false) (collection st "results") ->
  CACHE_TTL (env_CACHE_TTL env) = Finite ttl ->
  rejects env (MongoInsertOne "results" doc) = None ->
  rejects env (RedisSetEx key (Finite ttl) (JSON.stringify doc)) = None ->
  (now env <= now env1 < now env + ttl)%Z ->
  rejects env1 (RedisGet key) = None ->
  (now env + ttl <= now env2)%Z ->
  rejects env2 (RedisGet key) = None ->
  rejects env2 (MongoFindOne "results" s) = None ->
  status (fst (addResult env (JObject props) st)) = 201
  /\ In (stored (id_assigned props st)) (collection st1 "results")
  /\ fst (getResult env1 s st1) = res_json 200 doc
  /\ fst (getResult env2 s st1)
     = res_json 404 (JObject [("error", JString "Result not found")]).
Proof.
  intros s key doc st1 Hid Hn _ Hsub Hold Httl Hi Hs Hwin Hg1 Hexp Hg2 Hf2.
  assert (H1 : truthy_opt (assoc "id" props) = true).
  { rewrite Hid. simpl. now destruct (Z.eqb_spec n 0). }
  assert (Hc : template_literal (assoc "id" props)
               = Normal (template (assoc "id" props))) by now rewrite Hid.
  assert (E := addResult_ok env st props H1 Hsub Hc Hi).
  rewrite Hid, Httl in E. simpl template in E. specialize (E Hs).
  subst st1. rewrite E. cbn [fst snd].
  match goal with |- context [getResult env1 s ?x] => set (st1 := x) end.
  assert (Ecol : collection st1 "results"
                 = collection st "results" ++ [stored (id_assigned props st)]).
  { subst st1. apply collection_after_insert. }
  assert (Hentry : cache st1 !! result_key s
                   = Some {| entry_value := JSON.stringify doc;
                             entry_written := now env;
                             entry_seconds := Finite ttl |}).
  { subst st1. simpl. apply lookup_insert_eq. }
  split; [reflexivity|]. split; [|split].
  - rewrite Ecol. apply in_or_app. right. now left.
  - assert (Hread : cache_read (now env1) (cache st1) (result_key s)
                    = Some (JSON.stringify doc)).
    { unfold cache_read. rewrite Hentry. unfold live. simpl.
      destruct (Z.ltb_spec (now env1) (now env + ttl)); [reflexivity|lia]. }
    rewrite (getResult_hit env1 st1 s _ _ Hg1 Hread
               (JSONFacts.parse_stringify doc)).
    cbn [fst]. unfold res_json. now rewrite JSONFacts.stringify_jsonify.
  - assert (Hmiss : cached_truthy (cache_read (now env2) (cache st1) (result_key s))
                    = false).
    { unfold cache_read. rewrite Hentry. unfold live. simpl.
      destruct (Z.ltb_spec (now env2) (now env + ttl)); [lia|reflexivity]. }
    assert (Hfind : List.find (matches_id s) (collection st1 "results") = None).
    { rewrite Ecol, (find_app_first _ _ _ Hold). cbn [List.find].
      unfold stored, matches_id.
      change (assoc "id" (("_id", ?v) :: ?rest)) with (assoc "id" rest).
      rewrite assoc_remove_other, assoc_id_assigned, Hid by discriminate.
      reflexivity. }
    now rewrite (getResult_not_found env2 st1 s Hg2 Hmiss Hf2 Hfind).
Qed.

Lemma numeric_id_served_from_cache_only_witness :
  fst (getResult (Scenario.request_at None 5) "7"
         (snd (addResult (Scenario.request_at None 0) (JObject Scenario.result_7)
                 Scenario.empty_state)))
  = res_json 200 (JObject (Scenario.result_7 ++ [("_id", ObjectId 0)]))
  /\ fst (getResult (Scenario.request_at None 600) "7"
            (snd (addResult (Scenario.request_at None 0) (JObject Scenario.result_7)
                    Scenario.empty_state)))
     = res_json 404 (JObject [("error", JString "Result not found")]).
Proof.
  destruct (numeric_id_served_from_cache_only
              (Scenario.request_at None 0) (Scenario.request_at None 5)
              (Scenario.request_at None 600) Scenario.empty_state
              Scenario.result_7 7 600)
    as (_ & _ & H1 & H2); try reflexivity; try discriminate;
    try (simpl; lia).
  - constructor.
  - split; [exact H1 | exact H2].
Defined.

(** X10.  The write endpoints stay in their own collection and key.
    [POST /addStudent] never changes the cache nor any collection but
    [students]; [POST /addResult] never changes any collection but
    [results], nor any cache key but the [result:<id>] of the body it was
    given. *)
Theorem writes_stay_in_their_place
    (env : Env) (st : State) (req_body : JsValue) :
  (cache (snd (addStudent env req_body st)) = cache st
   /\ forall name, name <> "students" ->
                   collection (snd (addStudent env req_body st)) name
                   = collection st name)
  /\
  ((forall name, name <> "results" ->
                 collection (snd (addResult env req_body st)) name
                 = collection st name)
   /\ forall o key,
        get_prop req_body "id" = Normal o ->
        key <> "result:" +:+ template o ->
        cache (snd (addResult env req_body st)) !! key = cache st !! key).
Proof.
  split; [split|split].
  - apply addStudent_effect.
  - intros name Hne.
    destruct (addStudent_effect env req_body st) as (_ & [E|(props & _ & _ & _ & E)]).
    + now apply collection_db_same.
    + now apply (collection_db_insert _ _ _ _ E).
  - intros name Hne.
    destruct (addResult_effect env req_body st) as [[E _]|(props & _ & _ & _ & E & _)].
    + now apply collection_db_same.
    + now apply (collection_db_insert _ _ _ _ E).
  - intros o key Ho Hne.
    destruct (addResult_effect env req_body st)
      as [[_ E]|(props & -> & _ & _ & _ & [E|E])]; rewrite E; [reflexivity..|].
    simpl in Ho. injection Ho as <-.
    now rewrite lookup_insert_ne by (unfold result_key; congruence).
Qed.

Lemma writes_stay_in_their_place_witness :
  cache (snd (addResult (Scenario.request_at None 700)
                (JObject Scenario.result_7) Scenario.ingested_S1))
  !! "result:S1"
  = cache Scenario.ingested_S1 !! "result:S1".
Proof.
  apply (proj2 (proj2 (writes_stay_in_their_place (Scenario.request_at None 700)
                         Scenario.ingested_S1 (JObject Scenario.result_7)))
           (Some (JNumber 7)) "result:S1"); [reflexivity|discriminate].
Defined.

(* ===================================================================== *)
(** ** Properties of every sequence of requests                           *)
(* ===================================================================== *)

(** X11.  No request removes or changes a stored document: after any
    sequence of requests each collection is what it was, followed by the
    documents added, at most one for each request. *)
Theorem documents_are_never_removed
    (trace : list (Env * Request)) (st : State) (name : string) :
  exists added,
    collection (run trace st) name = collection st name ++ added
    /\ length added <= length trace.
Proof.
  revert st. induction trace as [|[env r] trace IH]; intros st.
  - exists []. rewrite app_nil_r. split; [reflexivity|simpl; lia].
  - destruct (serve_appends env r st name) as (a1 & E1 & L1).
    destruct (IH (snd (serve env r st))) as (a2 & E2 & L2).
    exists (a1 ++ a2). cbn [run]. rewrite E2, E1, <- app_assoc.
    split; [reflexivity|]. rewrite length_app. simpl. lia.
Qed.

Lemma store_validated_empty : store_validated Scenario.empty_state.
Proof. split; constructor. Qed.

Lemma cache_backed_empty : cache_backed Scenario.empty_state.
Proof. intros key e H. discriminate H. Qed.

Lemma run_keeps_invariants trace : forall st,
  store_validated st -> cache_backed st ->
  store_validated (run trace st) /\ cache_backed (run trace st).
Proof.
  induction trace as [|[env r] trace IH]; intros st Hv Hb; [now split|].
  cbn [run]. apply IH.
  - now apply serve_keeps_validated.
  - now apply serve_keeps_backed.
Qed.

(** X12.  Validation is an invariant of the store: if every stored result
    and student has a non-null [_id] as its first field and nowhere else, a
    truthy [id], and a truthy [subjects] (results) or [name] (students),
    then so it is after any sequence of requests, whatever the services
    reject; in particular in every state reached from the empty one. *)
Theorem store_holds_only_validated_documents
    (trace : list (Env * Request)) (st : State) :
  store_validated st ->
  store_validated (run trace st)
  /\ store_validated (run trace Scenario.empty_state).
Proof.
  intros Hv. split.
  - revert st Hv. induction trace as [|[env r] trace IH]; intros st Hv;
      [exact Hv|].
    cbn [run]. apply IH. now apply serve_keeps_validated.
  - apply run_keeps_invariants;
      [apply store_validated_empty | apply cache_backed_empty].
Qed.

Lemma store_holds_only_validated_documents_witness :
  store_validated
    (run [(Scenario.request_at None 0, AddResult (JObject Scenario.result_S1));
          (Scenario.request_at None 1, AddStudent (JObject Scenario.student_zero_id));
          (Scenario.request_at None 2, AddStudent (JObject Scenario.student_S1));
          (Scenario.request_at None 3, GetResult "S1")]
       Scenario.empty_state).
Proof.
  apply (proj1 (store_holds_only_validated_documents
                  [(Scenario.request_at None 0, AddResult (JObject Scenario.result_S1));
                   (Scenario.request_at None 1,
                    AddStudent (JObject Scenario.student_zero_id));
                   (Scenario.request_at None 2, AddStudent (JObject Scenario.student_S1));
                   (Scenario.request_at None 3, GetResult "S1")]
                  Scenario.empty_state store_validated_empty)).
Defined.

(** X13.  The cache only ever holds stored results: if the store is
    validated and every cache key is a [result:<s>] holding the
    serialization of an object that the [results] collection holds and
    whose [id] matches or prints as [s], then so it is after any sequence
    of requests, whatever the services reject. *)
Theorem cache_holds_only_stored_results
    (trace : list (Env * Request)) (st : State) :
  store_validated st ->
  cache_backed st ->
  cache_backed (run trace st).
Proof. intros Hv Hb. now apply run_keeps_invariants. Qed.

Lemma cache_holds_only_stored_results_witness :
  cache_backed
    (run [(Scenario.request_at None 0, AddResult (JObject Scenario.result_S1));
          (Scenario.cache_down_at None 1, AddResult (JObject Scenario.result_7));
          (Scenario.request_at None 700, GetResult "S1")]
       Scenario.empty_state).
Proof.
  apply (cache_holds_only_stored_results
           [(Scenario.request_at None 0, AddResult (JObject Scenario.result_S1));
            (Scenario.cache_down_at None 1, AddResult (JObject Scenario.result_7));
            (Scenario.request_at None 700, GetResult "S1")]
           Scenario.empty_state store_validated_empty cache_backed_empty).
Defined.

(* ===================================================================== *)
(** ** Properties of the other routes and of the process                  *)
(* ===================================================================== *)

Import Service.

Lemma getStudents_ok p st :
  refuses p (MongoFindAll "students") = None ->
  getStudents p st
  = (res_json 200 (JArray (collection st "students")), [MongoFindAll "students"]).
Proof. intros H. unfold getStudents, attempt, and_then, call. now rewrite H. Qed.

(** X14.  [GET /getStudents] answers 200 with the array of all stored
    students in insertion order, so a student just added by an accepted
    [POST /addStudent] is the last element of the next listing, in its
    stored form, after every student that was there before. *)
Theorem added_student_is_listed_last
    (env : Env) (p : Probe) (st : State) (props : list (string * JsValue)) :
  truthy_opt (assoc "id" props) = true ->
  truthy_opt (assoc "name" props) = true ->
  rejects env (MongoInsertOne "students" (JObject (id_assigned props st))) = None ->
  refuses p (MongoFindAll "students") = None ->
  fst (getStudents p st) = res_json 200 (JArray (collection st "students"))
  /\ fst (getStudents p (snd (addStudent env (JObject props) st)))
     = res_json 200 (JArray (collection st "students"
                             ++ [stored (id_assigned props st)]))
  /\ JSON.parse (body (fst (getStudents p (snd (addStudent env (JObject props) st)))))
     = Some (JArray (map JSON.jsonify (collection st "students")
                     ++ [JSON.jsonify (stored (id_assigned props st))])).
Proof.
  intros H1 H2 Hi Hf.
  rewrite !(getStudents_ok p _ Hf), (addStudent_ok env st props H1 H2 Hi).
  cbn [fst snd]. rewrite collection_after_insert.
  split; [reflexivity|]. split; [reflexivity|].
  unfold res_json. cbn [body]. rewrite JSONFacts.parse_stringify.
  change (JSON.jsonify (JArray ?l)) with (JArray (map JSON.jsonify l)).
  now rewrite map_app.
Qed.

Lemma added_student_is_listed_last_witness :
  fst (getStudents {| refuses := fun _ => None; iso_time := "2025-01-01T00:00:00.000Z" |}
         (snd (addStudent (Scenario.request_at None 5)
                 (JObject Scenario.student_S1) Scenario.one_student)))
  = res_json 200
      (JArray [stored (Scenario.student_S1 ++ [("_id", ObjectId 0)]);
               stored (Scenario.student_S1 ++ [("_id", ObjectId 1)])]).
Proof.
  destruct (added_student_is_listed_last (Scenario.request_at None 5)
              {| refuses := fun _ => None; iso_time := "2025-01-01T00:00:00.000Z" |}
              Scenario.one_student Scenario.student_S1
              eq_refl eq_refl eq_refl eq_refl) as (_ & H & _).
  exact H.
Defined.

(** X15.  When the store fails the query of [GET /getStudents], the answer
    is 500 with the generic body [{error: "Failed to fetch students"}],
    the same whatever the message of the error, and the query was made
    once. *)
Theorem getStudents_failure_is_generic_500
    (p : Probe) (st : State) (message : string) :
  refuses p (MongoFindAll "students") = Some message ->
  getStudents p st
  = (res_json 500 (JObject [("error", JString "Failed to fetch students")]),
     [MongoFindAll "students"]).
Proof. intros H. unfold getStudents, attempt, and_then, call. now rewrite H. Qed.

Lemma getStudents_failure_is_generic_500_witness :
  getStudents {| refuses := fun _ => Some "connect ECONNREFUSED";
                 iso_time := "2025-01-01T00:00:00.000Z" |} Scenario.one_student
  = (res_json 500 (JObject [("error", JString "Failed to fetch students")]),
     [MongoFindAll "students"]).
Proof.
  apply (getStudents_failure_is_generic_500
           {| refuses := fun _ => Some "connect ECONNREFUSED";
              iso_time := "2025-01-01T00:00:00.000Z" |}
           Scenario.one_student "connect ECONNREFUSED" eq_refl).
Defined.



Lemma connect_failed_error error :
  error <> Js.JNull -> Service.connect_failed error = Service.Exits 1.
Proof. intros He. destruct error; try reflexivity. now destruct He. Qed.

Lemma connect_failed_exit error code :
  Service.connect_failed error = Service.Exits code -> code = 1%nat.
Proof.
  destruct error; simpl; intros H; first [discriminate H | now injection H].
Qed.

(** X17.  At start-up [app.listen] is called exactly when both connects
    resolve.  A connect rejected with an error ends the process with exit
    code 1 without [app.listen] being called, and when the store connect is
    rejected the cache connect is not attempted.  While a connect stays
    pending, neither [app.listen] nor [process.exit] is called.  No other
    exit code is used. *)
Theorem start_listens_iff_both_connect (b : Boot) :
  (fst (start b) = ListenCalled
   <-> mongo_connect b = Resolves /\ redis_connect b = Resolves)
  /\ (forall error,
        error <> JNull ->
        mongo_connect b = Rejects error ->
        start b = (Exited 1, [MongoConnect]))
  /\ (forall error,
        error <> JNull ->
        mongo_connect b = Resolves ->
        redis_connect b = Rejects error ->
        start b = (Exited 1, [MongoConnect; RedisConnect]))
  /\ (mongo_connect b = Pends -> start b = (Waiting, [MongoConnect]))
  /\ (mongo_connect b = Resolves ->
      redis_connect b = Pends ->
      start b = (Waiting, [MongoConnect; RedisConnect]))
  /\ (forall code, fst (start b) = Exited code -> code = 1%nat).
Proof.
  unfold start, connectDB.
  destruct (mongo_connect b) as [|e1|];
    [destruct (redis_connect b) as [|e2|]| |];
    try destruct (connect_failed e1) eqn:E1;
    try destruct (connect_failed e2) eqn:E2;
    try (destruct e1; discriminate E1); try (destruct e2; discriminate E2);
    repeat split; simpl; intros; destruct_and?; simplify_eq;
    try match goal with
        | H : ?e <> JNull, E : connect_failed ?e = _ |- _ =>
            rewrite (connect_failed_error e H) in E; simplify_eq
        end;
    try match goal with
        | E : connect_failed _ = Exits ?c |- ?c = 1%nat =>
            exact (connect_failed_exit _ _ E)
        end;
    auto.
Qed.

Lemma start_listens_iff_both_connect_witness :
  start {| mongo_connect :=
             Rejects (JObject [("message", JString "connect ECONNREFUSED");
                               ("stack", JString "Error: connect ECONNREFUSED")]);
           redis_connect := Resolves |}
  = (Exited 1, [MongoConnect]).
Proof.
  apply (proj1 (proj2 (start_listens_iff_both_connect
           {| mongo_connect :=
                Rejects (JObject [("message", JString "connect ECONNREFUSED");
                                  ("stack", JString "Error: connect ECONNREFUSED")]);
              redis_connect := Resolves |}))
           (JObject [("message", JString "connect ECONNREFUSED");
                     ("stack", JString "Error: connect ECONNREFUSED")]));
    [discriminate | reflexivity].
Defined.



(* ===================================================================== *)
(** ** What a status code tells the caller                                *)
(* ===================================================================== *)

(** X19.  A 201 is only given for work done.  When [POST /addResult]
    answers 201 the body was an object with truthy [id] and [subjects], its
    stored form is the last document of [results], and the cache holds its
    serialization under [result:<id>]; when [POST /addStudent] answers 201
    the stored form of the body is the last document of [students]. *)
Theorem created_means_stored (env : Env) (st : State) (req_body : JsValue) :
  (status (fst (addResult env req_body st)) = 201 ->
   exists props,
     req_body = JObject props
     /\ truthy_opt (assoc "id" props) = true
     /\ truthy_opt (assoc "subjects" props) = true
     /\ collection (snd (addResult env req_body st)) "results"
        = collection st "results" ++ [stored (id_assigned props st)]
     /\ cache (snd (addResult env req_body st))
        !! ("result:" +:+ template (assoc "id" props))
        = Some {| entry_value := JSON.stringify (JObject (id_assigned props st));
                  entry_written := now env;
                  entry_seconds := CACHE_TTL (env_CACHE_TTL env) |})
  /\
  (status (fst (addStudent env req_body st)) = 201 ->
   exists props,
     req_body = JObject props
     /\ truthy_opt (assoc "id" props) = true
     /\ truthy_opt (assoc "name" props) = true
     /\ collection (snd (addStudent env req_body st)) "students"
        = collection st "students" ++ [stored (id_assigned props st)]).
Proof.
  split.
  - intros H.
    destruct (addResult_created env st req_body H)
      as (props & -> & T1 & T2 & Hc & Hi & Hs).
    exists props. split; [reflexivity|].
    rewrite (addResult_ok env st props T1 T2 Hc Hi Hs). cbn [snd].
    split; [exact T1|]. split; [exact T2|]. split.
    + change (collection (set_cache _ (journal _ ?x)) "results")
        with (collection x "results").
      apply collection_after_insert.
    + simpl. apply lookup_insert_eq.
  - destruct req_body as [| | | | | |props]; try (intros H; discriminate H).
    intros H. exists props. split; [reflexivity|].
    destruct (truthy_opt (assoc "id" props)) eqn:T1.
    2:{ rewrite (addStudent_invalid env st (JObject props) _ _ eq_refl eq_refl) in H;
          [discriminate H | now rewrite T1]. }
    destruct (truthy_opt (assoc "name" props)) eqn:T2.
    2:{ rewrite (addStudent_invalid env st (JObject props) _ _ eq_refl eq_refl) in H;
          [discriminate H | rewrite T2; apply andb_false_r]. }
    destruct (rejects env (MongoInsertOne "students" (JObject (id_assigned props st))))
      as [m|] eqn:Hi.
    { rewrite (addStudent_insert_rejected env st props m T1 T2 Hi) in H.
      discriminate H. }
    rewrite (addStudent_ok env st props T1 T2 Hi). cbn [snd].
    repeat split. apply collection_after_insert.
Qed.

Lemma created_means_stored_witness :
  exists props,
    JObject Scenario.result_S1 = JObject props
    /\ truthy_opt (assoc "id" props) = true
    /\ truthy_opt (assoc "subjects" props) = true
    /\ collection (snd (addResult (Scenario.request_at None 0)
                          (JObject Scenario.result_S1) Scenario.empty_state))
         "results"
       = collection Scenario.empty_state "results"
         ++ [stored (id_assigned props Scenario.empty_state)]
    /\ cache (snd (addResult (Scenario.request_at None 0)
                     (JObject Scenario.result_S1) Scenario.empty_state))
       !! ("result:" +:+ template (assoc "id" props))
       = Some {| entry_value :=
                   JSON.stringify (JObject (id_assigned props Scenario.empty_state));
                 entry_written := 0;
                 entry_seconds := CACHE_TTL None |}.
Proof.
  apply (proj1 (created_means_stored (Scenario.request_at None 0)
                  Scenario.empty_state (JObject Scenario.result_S1))).
  reflexivity.
Defined.

(** X20.  A 404 from the lookup is never the sign of a failure: it is
    given only when both the cache read and the store query were answered,
    no non-empty entry was live for the key, and the store has no document
    matching the [id]; the cache is then left as it was. *)
Theorem not_found_means_no_stored_match (env : Env) (st : State) (s : string) :
  status (fst (getResult env s st)) = 404 ->
  rejects env (RedisGet ("result:" +:+ s)) = None
  /\ rejects env (MongoFindOne "results" s) = None
  /\ cached_truthy (cache_read (now env) (cache st) ("result:" +:+ s)) = false
  /\ Forall (fun doc => matches_id s doc = false) (collection st "results")
  /\ cache (snd (getResult env s st)) = cache st.
Proof.
  unfold getResult, try_catch, bind, redis_get, findOne, redis_setEx, driver,
    ret, throw.
  destruct (rejects env (RedisGet _)) eqn:Hg; simpl; [discriminate|].
  fold (result_key s).
  destruct (cached_truthy _) eqn:Hc;
    [destruct (JSON.parse _); simpl; discriminate|].
  destruct (rejects env (MongoFindOne _ _)) eqn:Hf; simpl; [discriminate|].
  change (collection (journal _ (journal _ st)) "results")
    with (collection st "results").
  destruct (List.find _ _) as [doc|] eqn:Hd; simpl.
  - destruct (rejects env (RedisSetEx _ _ _)); simpl; discriminate.
  - intros _. repeat split; auto.
    apply Forall_forall. intros d Hin.
    apply list_elem_of_In in Hin.
    destruct (matches_id s d) eqn:Hm; [|reflexivity].
    now apply (List.find_none _ _ Hd) in Hin; congruence.
Qed.

Lemma not_found_means_no_stored_match_witness :
  Forall (fun doc => matches_id "7" doc = false)
    (collection (snd (addResult (Scenario.request_at None 0)
                        (JObject Scenario.result_7) Scenario.empty_state))
       "results").
Proof.
  apply (not_found_means_no_stored_match (Scenario.request_at None 600) _ "7").
  vm_compute. reflexivity.
Defined.
